(** * Authentication state transitions of the Google / Supabase sign-in screen

    A shallow embedding of [src/components/Auth.tsx] (the controller:
    [configureGoogleSignIn], [checkExistingSession], [updateAuthState],
    [signInWithGoogle], [signOut]) and of the profile card
    [AuthDisplay] ([getInitials], [getDisplayName]).

    - JavaScript strings are modelled as [string] over 7-bit ASCII; a
      character above 127 is left alone by [toUpperCase] and is not white
      space for [trim].
    - An [async] function is a computation in the monad [Eff]: it emits the
      calls it makes on its collaborators, in order, and completes normally
      or by throwing.  What the collaborators answer is read from a [World].
    - [setAuthState(prev => ...)] is an emitted event carrying the partial
      update; the React state is obtained by folding the updates over the
      state the component held before ([applyEvents], [stateTrace]). *)

From Stdlib Require Import String Ascii List Bool Arith Lia.
Import ListNotations.
Open Scope string_scope.
Open Scope list_scope.

(** ** JavaScript values and string primitives *)

Module Js.

(** Truthiness of [string | undefined | null]: only a non-empty string is
    truthy. *)
Definition truthy (v : option string) : bool :=
  match v with
  | Some s => negb (String.eqb s "")
  | None => false
  end.

(** [a || b] on optional strings. *)
Definition or (a b : option string) : option string :=
  if truthy a then a else b.

(** [a || 'literal']: the right operand is a string, so is the result. *)
Definition orDefault (a : option string) (b : string) : string :=
  match a with
  | Some s => if String.eqb s "" then b else s
  | None => b
  end.

Definition isLower (c : ascii) : bool :=
  let n := nat_of_ascii c in ((97 <=? n) && (n <=? 122))%nat.

Definition upperChar (c : ascii) : ascii :=
  if isLower c then ascii_of_nat (nat_of_ascii c - 32) else c.

(** [s.toUpperCase()] *)
Fixpoint toUpperCase (s : string) : string :=
  match s with
  | EmptyString => EmptyString
  | String c r => String (upperChar c) (toUpperCase r)
  end.

(** White space and line terminators removed by [trim]: TAB, LF, VT, FF, CR
    and SPACE. *)
Definition isSpace (c : ascii) : bool :=
  let n := nat_of_ascii c in (((9 <=? n) && (n <=? 13)) || (n =? 32))%nat.

Fixpoint trimStart (s : string) : string :=
  match s with
  | EmptyString => EmptyString
  | String c r => if isSpace c then trimStart r else s
  end.

Fixpoint trimEnd (s : string) : string :=
  match s with
  | EmptyString => EmptyString
  | String c r =>
      match trimEnd r with
      | EmptyString => if isSpace c then EmptyString else String c EmptyString
      | r' => String c r'
      end
  end.

(** [s.trim()] *)
Definition trim (s : string) : string := trimEnd (trimStart s).

(** [s.split(sep)] for a one-character separator; the empty string splits
    into one empty piece. *)
Fixpoint split (sep : ascii) (s : string) : list string :=
  match s with
  | EmptyString => [EmptyString]
  | String c r =>
      if Ascii.eqb c sep then EmptyString :: split sep r
      else match split sep r with
           | [] => [String c EmptyString]
           | t :: ts => String c t :: ts
           end
  end.

(** [s[0]]: [undefined] on the empty string. *)
Definition index0 (s : string) : option ascii :=
  match s with
  | EmptyString => None
  | String c _ => Some c
  end.

(** [s.charAt(0)]: the empty string on the empty string. *)
Definition charAt0 (s : string) : string :=
  match s with
  | EmptyString => EmptyString
  | String c _ => String c EmptyString
  end.

(** [s.slice(1)] *)
Definition slice1 (s : string) : string :=
  match s with
  | EmptyString => EmptyString
  | String _ r => r
  end.

(** A value interpolated in a template literal: [undefined] prints as the
    word. *)
Definition interpolate (c : option ascii) : string :=
  match c with
  | Some c => String c EmptyString
  | None => "undefined"
  end.

End Js.

(** ** Data model *)

(** [interface User], declared identically by the controller and the card. *)
Record User := mkUser {
  id : string;
  email : string;
  displayName : option string;
  photoURL : option string;
  provider : option string
}.

(** [interface AuthState] *)
Record AuthState := mkAuthState {
  user : option User;
  loading : bool;
  error : option string;
  isConfigured : bool
}.

(** [Partial<AuthState>]: a key that is absent is [None]; [user] and [error]
    can be written with [null], hence the nested option. *)
Record PartialAuthState := mkPartial {
  p_user : option (option User);
  p_loading : option bool;
  p_error : option (option string);
  p_isConfigured : option bool
}.

(** [{ ...prev, ...updates }] *)
Definition spread (prev : AuthState) (updates : PartialAuthState) : AuthState :=
  {| user := match p_user updates with Some v => v | None => user prev end;
     loading := match p_loading updates with Some v => v | None => loading prev end;
     error := match p_error updates with Some v => v | None => error prev end;
     isConfigured :=
       match p_isConfigured updates with Some v => v | None => isConfigured prev end |}.

(** ** Collaborators *)

(** [statusCodes] of the Google Sign-In client; any other code is
    [OtherCode]. *)
Inductive statusCode :=
| SIGN_IN_CANCELLED
| IN_PROGRESS
| PLAY_SERVICES_NOT_AVAILABLE
| OtherCode (c : string).

(** What a [catch] clause can receive. *)
Inductive thrown :=
| JsError (message : string)
| JsObject (code : option statusCode) (message : option string)
| JsPrimitive.

(** A settled promise. *)
Inductive settled (A : Type) :=
| Fulfilled (a : A)
| Rejected (e : thrown).
Arguments Fulfilled {A} a.
Arguments Rejected {A} e.

(** [result.data.user] of [GoogleSignin.signIn()] *)
Record GoogleUser := mkGoogleUser {
  g_email : string;
  g_name : option string;
  g_photo : option string
}.

(** [result.data] *)
Record GoogleData := mkGoogleData {
  g_user : GoogleUser;
  idToken : option string
}.

(** [data.user] of the backend, and [session.user]. *)
Record UserMetadata := mkUserMetadata {
  full_name : option string;
  name : option string;
  avatar_url : option string;
  picture : option string
}.

Record SupabaseUser := mkSupabaseUser {
  sb_id : string;
  sb_email : option string;
  user_metadata : option UserMetadata
}.

Record AuthError := mkAuthError { ae_message : string }.

(** [{ data: { user }, error }] of [signInWithIdToken] *)
Record AuthResponse := mkAuthResponse {
  r_user : option SupabaseUser;
  r_error : option AuthError
}.

(** The answers of the environment during one run. *)
Record World := mkWorld {
  platformOS : string;
  webClientId : option string;
  configure : settled unit;
  hasPlayServices : settled unit;
  googleSignOut : settled unit;
  googleSignIn : settled (option GoogleData);
  getSession : settled (option (option SupabaseUser));
  signInWithIdToken : string -> string -> settled AuthResponse;
  supabaseSignOut : settled (option AuthError)
}.

(** ** Effects *)

Inductive event :=
| SetAuthState (updates : PartialAuthState)
| GoogleConfigure (clientId : string)
| GoogleHasPlayServices
| GoogleSignOut
| GoogleSignIn
| SupabaseGetSession
| SupabaseSignInWithIdToken (prov token : string)
| SupabaseSignOut
| ConsoleError (label : string)
| ConsoleWarn (label : string)
| AlertAlert (title message : string).

Inductive completion (A : Type) :=
| Normal (a : A)
| Throw (e : thrown).
Arguments Normal {A} a.
Arguments Throw {A} e.

Definition Eff (A : Type) : Type := (list event * completion A)%type.

Definition ret {A} (a : A) : Eff A := ([], Normal a).

Definition bind {A B} (m : Eff A) (f : A -> Eff B) : Eff B :=
  match m with
  | (l, Normal a) => let (l', r) := f a in (l ++ l', r)
  | (l, Throw e) => (l, Throw e)
  end.

Definition throw {A} (e : thrown) : Eff A := ([], Throw e).

Definition emit (ev : event) : Eff unit := ([ev], Normal tt).

(** [await call()], the call being answered by [r]. *)
Definition await {A} (ev : event) (r : settled A) : Eff A :=
  match r with
  | Fulfilled a => ([ev], Normal a)
  | Rejected e => ([ev], Throw e)
  end.

(** [try { body } catch (e) { handler e }] *)
Definition tryCatch {A} (body : Eff A) (handler : thrown -> Eff A) : Eff A :=
  match body with
  | (l, Throw e) => let (l', r) := handler e in (l ++ l', r)
  | done => done
  end.

(** [try { m } finally { fin }] *)
Definition tryFinally {A} (m : Eff A) (fin : Eff unit) : Eff A :=
  let (l, r) := m in
  let (l', r') := fin in
  (l ++ l', match r' with Throw e => Throw e | Normal _ => r end).

Declare Scope eff_scope.
Delimit Scope eff_scope with eff.
Notation "x <- m ;; k" := (bind m (fun x => k))
  (at level 61, m at next level, right associativity) : eff_scope.
Notation "m ;; k" := (bind m (fun _ => k))
  (at level 61, right associativity) : eff_scope.

Definition events {A} (m : Eff A) : list event := fst m.
Definition outcome {A} (m : Eff A) : completion A := snd m.

(** The state after the queued updater functions have run, in order. *)
Fixpoint applyEvents (s : AuthState) (l : list event) : AuthState :=
  match l with
  | [] => s
  | SetAuthState u :: l' => applyEvents (spread s u) l'
  | _ :: l' => applyEvents s l'
  end.

(** The state after each update, in order. *)
Fixpoint stateTrace (s : AuthState) (l : list event) : list AuthState :=
  match l with
  | [] => []
  | SetAuthState u :: l' => spread s u :: stateTrace (spread s u) l'
  | _ :: l' => stateTrace s l'
  end.

(** The updates alone. *)
Fixpoint updatesOf (l : list event) : list PartialAuthState :=
  match l with
  | [] => []
  | SetAuthState u :: l' => u :: updatesOf l'
  | _ :: l' => updatesOf l'
  end.

(** ** The controller, [src/components/Auth.tsx] *)

Module Auth.

Local Open Scope eff_scope.

(** [useState<AuthState>({...})] at mount. *)
Definition initialAuthState : AuthState :=
  {| user := None; loading := false; error := None; isConfigured := false |}.

(** [configureGoogleSignIn] *)
Definition configureGoogleSignIn (w : World) : Eff bool :=
  tryCatch
    (match webClientId w with
     | Some cid =>
         if String.eqb cid "" then
           emit (ConsoleError "Google Web Client ID not found in environment variables") ;;
           ret false
         else
           await (GoogleConfigure cid) (configure w) ;;
           ret true
     | None =>
         emit (ConsoleError "Google Web Client ID not found in environment variables") ;;
         ret false
     end)
    (fun _ =>
       emit (ConsoleError "Error configuring Google Sign-In:") ;;
       ret false).

(** The user built from [session.user] by [checkExistingSession]. *)
Definition sessionUser (u : SupabaseUser) : User :=
  let md := user_metadata u in
  let get (f : UserMetadata -> option string) :=
    match md with Some m => f m | None => None end in
  {| id := sb_id u;
     email := Js.orDefault (sb_email u) "";
     displayName := Js.or (get full_name) (get name);
     photoURL := Js.or (get avatar_url) (get picture);
     provider := Some "google" |}.

(** [checkExistingSession] *)
Definition checkExistingSession (w : World) : Eff unit :=
  tryCatch
    (session <- await SupabaseGetSession (getSession w) ;;
     match session with
     | Some (Some u) =>
         emit (SetAuthState
                 {| p_user := Some (Some (sessionUser u)); p_loading := None;
                    p_error := None; p_isConfigured := None |})
     | _ => ret tt
     end)
    (fun _ => emit (ConsoleError "Error checking existing session:")).

(** The body of [useEffect(..., [])]. *)
Definition onMount (w : World) : Eff unit :=
  configured <- configureGoogleSignIn w ;;
  emit (SetAuthState
          {| p_user := None; p_loading := None; p_error := None;
             p_isConfigured := Some configured |}) ;;
  checkExistingSession w.

(** [updateAuthState] *)
Definition updateAuthState (updates : PartialAuthState) : Eff unit :=
  emit (SetAuthState updates).

(** The [User] committed by a sign-in, lines 148-154. *)
Definition userData (backend : SupabaseUser) (googleUser : GoogleUser) : User :=
  {| id := sb_id backend;
     email := Js.orDefault (sb_email backend) (g_email googleUser);
     displayName := Some (Js.orDefault (g_name googleUser) "");
     photoURL := Some (Js.orDefault (g_photo googleUser) "");
     provider := Some "google" |}.

(** The [try] block of [signInWithGoogle]; [authState] is the state the
    closure captured at render. *)
Definition signInTry (w : World) (authState : AuthState) : Eff unit :=
  updateAuthState
    {| p_user := None; p_loading := Some true; p_error := Some None;
       p_isConfigured := None |} ;;
  (if negb (String.eqb (platformOS w) "android")
   then throw (JsError "Google Sign-In is currently only available on Android")
   else ret tt) ;;
  (if negb (isConfigured authState)
   then throw (JsError "Google Sign-In is not properly configured")
   else ret tt) ;;
  await GoogleHasPlayServices (hasPlayServices w) ;;
  await GoogleSignOut (googleSignOut w) ;;
  result <- await GoogleSignIn (googleSignIn w) ;;
  match result with
  | None => throw (JsError "No user data received from Google")
  | Some data =>
      let googleUser := g_user data in
      if negb (Js.truthy (idToken data))
      then throw (JsError "No ID token received from Google")
      else
        let token := Js.orDefault (idToken data) "" in
        resp <- await (SupabaseSignInWithIdToken "google" token)
                      (signInWithIdToken w "google" token) ;;
        match r_error resp with
        | Some err =>
            throw (JsError
                     (String.append "Supabase authentication failed: " (ae_message err)))
        | None =>
            match r_user resp with
            | None => throw (JsError "No user data received from Supabase")
            | Some backend =>
                updateAuthState
                  {| p_user := Some (Some (userData backend googleUser));
                     p_loading := None; p_error := Some None;
                     p_isConfigured := None |}
            end
        end
  end.

(** The message computed by the [catch] clause of [signInWithGoogle]. *)
Definition signInErrorMessage (e : thrown) : string :=
  match e with
  | JsError message => message
  | JsObject code message =>
      match code with
      | Some SIGN_IN_CANCELLED => "Sign-in was cancelled"
      | Some IN_PROGRESS => "Sign-in is already in progress"
      | Some PLAY_SERVICES_NOT_AVAILABLE => "Google Play Services is not available"
      | _ => Js.orDefault message "Google Sign-In failed"
      end
  | JsPrimitive => "An unexpected error occurred"
  end.

Definition signInCatch (e : thrown) : Eff unit :=
  let errorMessage := signInErrorMessage e in
  emit (ConsoleError "Google Sign-In Error:") ;;
  updateAuthState
    {| p_user := None; p_loading := None; p_error := Some (Some errorMessage);
       p_isConfigured := None |} ;;
  emit (AlertAlert "Sign-In Failed" errorMessage).

Definition setLoadingFalse : Eff unit :=
  updateAuthState
    {| p_user := None; p_loading := Some false; p_error := None;
       p_isConfigured := None |}.

(** [signInWithGoogle] *)
Definition signInWithGoogle (w : World) (authState : AuthState) : Eff unit :=
  tryFinally (tryCatch (signInTry w authState) signInCatch) setLoadingFalse.

(** The [try] block of [signOut]. *)
Definition signOutTry (w : World) : Eff unit :=
  updateAuthState
    {| p_user := None; p_loading := Some true; p_error := Some None;
       p_isConfigured := None |} ;;
  tryCatch (await GoogleSignOut (googleSignOut w))
           (fun _ => emit (ConsoleWarn "Google sign-out error (non-critical):")) ;;
  err <- await SupabaseSignOut (supabaseSignOut w) ;;
  match err with
  | Some e => throw (JsError (String.append "Sign-out failed: " (ae_message e)))
  | None =>
      updateAuthState
        {| p_user := Some None; p_loading := None; p_error := None;
           p_isConfigured := None |}
  end.

Definition signOutErrorMessage (e : thrown) : string :=
  match e with
  | JsError message => message
  | _ => "Sign-out failed"
  end.

Definition signOutCatch (e : thrown) : Eff unit :=
  let errorMessage := signOutErrorMessage e in
  emit (ConsoleError "Sign-out error:") ;;
  updateAuthState
    {| p_user := None; p_loading := None; p_error := Some (Some errorMessage);
       p_isConfigured := None |} ;;
  emit (AlertAlert "Sign-Out Failed" errorMessage).

(** [signOut] *)
Definition signOut (w : World) : Eff unit :=
  tryFinally (tryCatch (signOutTry w) signOutCatch) setLoadingFalse.

(** Whether the [try] block of an operation ran to its end. *)
Definition succeeded {A} (m : Eff A) : bool :=
  match outcome m with Normal _ => true | Throw _ => false end.

(** An operation of the screen, with the world it runs in. *)
Inductive operation :=
| OpSignIn (w : World) (captured : AuthState)
| OpSignOut (w : World)
| OpRestore (w : World).

Definition runOperation (o : operation) : Eff unit :=
  match o with
  | OpSignIn w captured => signInWithGoogle w captured
  | OpSignOut w => signOut w
  | OpRestore w => checkExistingSession w
  end.

Fixpoint runOperations (s : AuthState) (os : list operation) : AuthState :=
  match os with
  | [] => s
  | o :: os' => runOperations (applyEvents s (events (runOperation o))) os'
  end.

End Auth.

(** ** The profile card, [AuthDisplay] *)

Module AuthDisplay.

(** [getInitials] *)
Definition getInitials (name : option string) : string :=
  match name with
  | None => "?"
  | Some name =>
      if String.eqb name "" then "?"
      else
        let names := Js.split " " (Js.trim name) in
        if (2 <=? length names)%nat then
          Js.toUpperCase
            (String.append (Js.interpolate (Js.index0 (hd "" names)))
                           (Js.interpolate (Js.index0 (last names ""))))
        else Js.toUpperCase (Js.charAt0 name)
  end.

(** [getDisplayName], over the [user] prop. *)
Definition getDisplayName (user : option User) : string :=
  match user with
  | None => "User"
  | Some u =>
      if Js.truthy (displayName u) then Js.orDefault (displayName u) ""
      else if negb (String.eqb (email u) "") then
        let emailName := hd "" (Js.split "@" (email u)) in
        String.append (Js.toUpperCase (Js.charAt0 emailName)) (Js.slice1 emailName)
      else "User"
  end.

(** What the image container shows for a signed-in user, lines 113-125. *)
Inductive avatar :=
| ProfileImage (uri : string)
| PlaceholderText (initials : string).

Definition profileAvatar (u : User) : avatar :=
  if Js.truthy (photoURL u) then ProfileImage (Js.orDefault (photoURL u) "")
  else PlaceholderText (getInitials (displayName u)).

(** The initials of the placeholder, [getInitials(user.displayName)]. *)
Definition placeholderInitials (u : User) : string :=
  getInitials (displayName u).

End AuthDisplay.


(** ** The failure paths of a sign-in, as the contract lists them

    Each constructor names one way the [try] block of [signInWithGoogle] is
    left, with the value the [catch] clause then receives. *)

Definition preconditionsHold (w : World) (authState : AuthState) : Prop :=
  platformOS w = "android" /\ isConfigured authState = true.

Definition servicesAvailable (w : World) (authState : AuthState) : Prop :=
  preconditionsHold w authState /\ hasPlayServices w = Fulfilled tt.

Definition providerAnswered (w : World) (authState : AuthState)
           (data : option GoogleData) : Prop :=
  servicesAvailable w authState /\ googleSignOut w = Fulfilled tt /\
  googleSignIn w = Fulfilled data.

Definition backendAnswered (w : World) (authState : AuthState)
           (data : GoogleData) (resp : AuthResponse) : Prop :=
  providerAnswered w authState (Some data) /\
  Js.truthy (idToken data) = true /\
  signInWithIdToken w "google" (Js.orDefault (idToken data) "") = Fulfilled resp.

Inductive signInFailure (w : World) (authState : AuthState) : thrown -> Prop :=
| UnsupportedPlatform :
    platformOS w <> "android" ->
    signInFailure w authState
      (JsError "Google Sign-In is currently only available on Android")
| NotConfigured :
    platformOS w = "android" -> isConfigured authState = false ->
    signInFailure w authState (JsError "Google Sign-In is not properly configured")
| ServiceUnavailable e :
    preconditionsHold w authState -> hasPlayServices w = Rejected e ->
    signInFailure w authState e
| ResetThrew e :
    servicesAvailable w authState -> googleSignOut w = Rejected e ->
    signInFailure w authState e
| ProviderThrew e :
    servicesAvailable w authState -> googleSignOut w = Fulfilled tt ->
    googleSignIn w = Rejected e ->
    signInFailure w authState e
| MissingProviderData :
    providerAnswered w authState None ->
    signInFailure w authState (JsError "No user data received from Google")
| MissingIdentityToken data :
    providerAnswered w authState (Some data) -> Js.truthy (idToken data) = false ->
    signInFailure w authState (JsError "No ID token received from Google")
| BackendThrew data e :
    providerAnswered w authState (Some data) -> Js.truthy (idToken data) = true ->
    signInWithIdToken w "google" (Js.orDefault (idToken data) "") = Rejected e ->
    signInFailure w authState e
| BackendRejected data resp err :
    backendAnswered w authState data resp -> r_error resp = Some err ->
    signInFailure w authState
      (JsError (String.append "Supabase authentication failed: " (ae_message err)))
| MissingBackendUser data resp :
    backendAnswered w authState data resp -> r_error resp = None ->
    r_user resp = None ->
    signInFailure w authState (JsError "No user data received from Supabase").

(** Whether a log holds a call of the backend's identity-token exchange. *)
Definition isBackendSignIn (ev : event) : bool :=
  match ev with
  | SupabaseSignInWithIdToken _ _ => true
  | _ => false
  end.

Definition isProviderSignIn (ev : event) : bool :=
  match ev with
  | GoogleSignIn => true
  | _ => false
  end.

Definition writesConfigured (u : PartialAuthState) : bool :=
  match p_isConfigured u with Some _ => true | None => false end.

(** The update both operations start with. *)
Definition entryUpdate : PartialAuthState :=
  {| p_user := None; p_loading := Some true; p_error := Some None;
     p_isConfigured := None |}.

Definition withError (s : AuthState) (e : option string) : AuthState :=
  {| user := user s; loading := loading s; error := e;
     isConfigured := isConfigured s |}.

(** A world in which every collaborator answers favourably. *)
Definition adaGoogle : GoogleUser :=
  {| g_email := "ada@x.com"; g_name := Some "Ada Lovelace"; g_photo := None |}.

Definition adaBackend : SupabaseUser :=
  {| sb_id := "uid-1"; sb_email := Some "ada@backend.org"; user_metadata := None |}.

Definition happyWorld : World :=
  {| platformOS := "android";
     webClientId := Some "client-id";
     configure := Fulfilled tt;
     hasPlayServices := Fulfilled tt;
     googleSignOut := Fulfilled tt;
     googleSignIn := Fulfilled (Some {| g_user := adaGoogle; idToken := Some "tok" |});
     getSession := Fulfilled None;
     signInWithIdToken := fun _ _ =>
       Fulfilled {| r_user := Some adaBackend; r_error := None |};
     supabaseSignOut := Fulfilled None |}.

Definition configuredState : AuthState :=
  {| user := None; loading := false; error := None; isConfigured := true |}.

(** The same world, the provider-side sign-out rejecting. *)
Definition resetFailsWorld : World :=
  {| platformOS := "android";
     webClientId := Some "client-id";
     configure := Fulfilled tt;
     hasPlayServices := Fulfilled tt;
     googleSignOut := Rejected (JsError "sign-out rejected");
     googleSignIn := googleSignIn happyWorld;
     getSession := Fulfilled None;
     signInWithIdToken := signInWithIdToken happyWorld;
     supabaseSignOut := Fulfilled None |}.

(** The provider answers with a profile and no identity token. *)
Definition noTokenWorld : World :=
  {| platformOS := "android";
     webClientId := Some "client-id";
     configure := Fulfilled tt;
     hasPlayServices := Fulfilled tt;
     googleSignOut := Fulfilled tt;
     googleSignIn := Fulfilled (Some {| g_user := adaGoogle; idToken := None |});
     getSession := Fulfilled None;
     signInWithIdToken := signInWithIdToken happyWorld;
     supabaseSignOut := Fulfilled None |}.

(** The provider supplies neither a name nor a photo. *)
Definition anonymousWorld : World :=
  {| platformOS := "android";
     webClientId := Some "client-id";
     configure := Fulfilled tt;
     hasPlayServices := Fulfilled tt;
     googleSignOut := Fulfilled tt;
     googleSignIn :=
       Fulfilled (Some {| g_user := {| g_email := "ada@x.com"; g_name := None;
                                       g_photo := None |};
                          idToken := Some "tok" |});
     getSession := Fulfilled None;
     signInWithIdToken := signInWithIdToken happyWorld;
     supabaseSignOut := Fulfilled None |}.

Definition adaNoName : User :=
  {| id := "uid-1"; email := "ada@x.com"; displayName := None; photoURL := None;
     provider := Some "google" |}.

(** The backend rejects the identity token. *)
Definition rejectingWorld : World :=
  {| platformOS := "android";
     webClientId := Some "client-id";
     configure := Fulfilled tt;
     hasPlayServices := Fulfilled tt;
     googleSignOut := Fulfilled tt;
     googleSignIn := googleSignIn happyWorld;
     getSession := Fulfilled None;
     signInWithIdToken := fun _ _ =>
       Fulfilled {| r_user := None; r_error := Some {| ae_message := "invalid token" |} |};
     supabaseSignOut := Fulfilled (Some {| ae_message := "network down" |}) |}.

Definition grace : User :=
  {| id := "uid-7"; email := "grace@x.com"; displayName := Some "Grace Hopper";
     photoURL := None; provider := Some "google" |}.

(** A state at rest with a user restored from a session and a stale error. *)
Definition restoredState : AuthState :=
  {| user := Some grace; loading := false; error := Some "stale";
     isConfigured := true |}.

(** [loading] over the span of an operation whose log is [l], run from [s]:
    the first thing the operation does is write [loading: true], the last is
    write [loading: false]; every state in between has [loading] true and
    the state it leaves has [loading] false. *)
Definition writesLoading (v : bool) (ev : option event) : Prop :=
  exists u, ev = Some (SetAuthState u) /\ p_loading u = Some v.

Definition loadingSpan (s : AuthState) (l : list event) : Prop :=
  writesLoading true (hd_error l) /\
  writesLoading false (hd_error (rev l)) /\
  removelast (stateTrace s l) <> [] /\
  Forall (fun st => loading st = true) (removelast (stateTrace s l)) /\
  loading (applyEvents s l) = false.

(** The last character of a string. *)
Fixpoint lastChar (s : string) : option ascii :=
  match s with
  | EmptyString => None
  | String c EmptyString => Some c
  | String _ r => lastChar r
  end.

(** ** What the screen renders

    The return value of [Auth] in [src/components/Auth.tsx] (lines 229-265)
    and of its copy in [src/app/index.tsx] (lines 282-311, with
    [GoogleSignInButton], lines 53-85), as view models. *)

Module AuthScreen.

Inductive signInControl :=
| Spinner
| SignInButton (disabled : bool).

Inductive view :=
| ConfigurationError
| Profile (u : User)
| SignInForm (control : signInControl) (errorText : option string).

(** [{authState.error && <Text>...</Text>}] *)
Definition errorText (authState : AuthState) : option string :=
  if Js.truthy (error authState) then error authState else None.

Definition render (authState : AuthState) : view :=
  if negb (isConfigured authState) then ConfigurationError
  else match user authState with
       | Some u => Profile u
       | None =>
           SignInForm
             (if loading authState then Spinner
              else SignInButton (loading authState))
             (errorText authState)
       end.

(** Whether a press can start [signInWithGoogle]. *)
Definition canPressSignIn (v : view) : bool :=
  match v with
  | SignInForm (SignInButton disabled) _ => negb disabled
  | _ => false
  end.

End AuthScreen.

Module IndexScreen.

Record button := mkButton {
  b_disabled : bool;
  b_spinner : bool;
  b_label : string
}.

(** [GoogleSignInButton] *)
Definition GoogleSignInButton (loading disabled : bool) : button :=
  {| b_disabled := disabled || loading;
     b_spinner := loading;
     b_label := if loading then "Signing in..." else "Sign in with Google" |}.

Inductive view :=
| ConfigurationError
| Profile (u : User)
| SignInForm (b : button) (errorText : option string).

Definition render (authState : AuthState) : view :=
  if negb (isConfigured authState) then ConfigurationError
  else match user authState with
       | Some u => Profile u
       | None =>
           SignInForm (GoogleSignInButton (loading authState) (loading authState))
                      (AuthScreen.errorText authState)
       end.

Definition canPressSignIn (v : view) : bool :=
  match v with
  | SignInForm b _ => negb (b_disabled b)
  | _ => false
  end.

End IndexScreen.

(** ** The actions and the body of the profile card

    [handleSignOut], [confirmSignOut] and the rendered card of
    [AuthDisplay].  The card has effects of its own (its [isSigningOut]
    flag, its prompts), around those of the [onSignOut] callback. *)

Module ProfileCard.

Inductive cardEvent :=
| SetIsSigningOut (v : bool)
| OnSignOut (ev : event)
| CardConsoleError (label : string)
| CardAlert (title message : string) (buttons : list string).

Definition Run (A : Type) : Type := (list cardEvent * completion A)%type.

Definition ret {A} (a : A) : Run A := ([], Normal a).

Definition bind {A B} (m : Run A) (f : A -> Run B) : Run B :=
  match m with
  | (l, Normal a) => let (l', r) := f a in (l ++ l', r)
  | (l, Throw e) => (l, Throw e)
  end.

Definition emit (ev : cardEvent) : Run unit := ([ev], Normal tt).

Definition tryCatch {A} (body : Run A) (handler : thrown -> Run A) : Run A :=
  match body with
  | (l, Throw e) => let (l', r) := handler e in (l ++ l', r)
  | done => done
  end.

Definition tryFinally {A} (m : Run A) (fin : Run unit) : Run A :=
  let (l, r) := m in
  let (l', r') := fin in
  (l ++ l', match r' with Throw e => Throw e | Normal _ => r end).

(** [await onSignOut()] *)
Definition awaitCallback (onSignOut : Eff unit) : Run unit :=
  (map OnSignOut (events onSignOut), outcome onSignOut).

(** [handleSignOut] *)
Definition handleSignOut (onSignOut : Eff unit) : Run unit :=
  tryFinally
    (tryCatch
       (bind (emit (SetIsSigningOut true)) (fun _ => awaitCallback onSignOut))
       (fun _ =>
          bind (emit (CardConsoleError "Sign out error in display:"))
               (fun _ =>
                  emit (CardAlert "Sign Out Error"
                          "There was a problem signing you out. Please try again."
                          ["OK"]))))
    (emit (SetIsSigningOut false)).

(** The button of the confirmation prompt the user presses, if any. *)
Inductive press :=
| PressCancel
| PressSignOut.

(** [confirmSignOut], with what the user answers to its prompt. *)
Definition confirmSignOut (answer : option press) (onSignOut : Eff unit) : Run unit :=
  bind (emit (CardAlert "Sign Out" "Are you sure you want to sign out?"
                ["Cancel"; "Sign Out"]))
       (fun _ =>
          match answer with
          | Some PressSignOut => handleSignOut onSignOut
          | _ => ret tt
          end).

(** The values [isSigningOut] takes, in order. *)
Fixpoint signingOutWrites (l : list cardEvent) : list bool :=
  match l with
  | [] => []
  | SetIsSigningOut v :: l' => v :: signingOutWrites l'
  | _ :: l' => signingOutWrites l'
  end.

(** What the callback did, in order. *)
Fixpoint callbackEvents (l : list cardEvent) : list event :=
  match l with
  | [] => []
  | OnSignOut ev :: l' => ev :: callbackEvents l'
  | _ :: l' => callbackEvents l'
  end.

(** The titles of the prompts shown. *)
Fixpoint alertTitles (l : list cardEvent) : list string :=
  match l with
  | [] => []
  | CardAlert title _ _ :: l' => title :: alertTitles l'
  | _ :: l' => alertTitles l'
  end.

(** [s.charAt(0).toUpperCase() + s.slice(1)] *)
Definition capitalize (s : string) : string :=
  String.append (Js.toUpperCase (Js.charAt0 s)) (Js.slice1 s).

(** The provider badge, lines 101-107. *)
Definition providerBadge (u : User) : option string :=
  if Js.truthy (provider u) then Some (capitalize (Js.orDefault (provider u) ""))
  else None.

(** [`ID: ${user.id.slice(0, 8)}...`], line 136. *)
Definition idLabel (u : User) : string :=
  String.append "ID: " (String.append (String.substring 0 8 (id u)) "...").

Record card := mkCard {
  badge : option string;
  avatar : AuthDisplay.avatar;
  nameText : string;
  emailText : string;
  idText : string;
  buttonsDisabled : bool;
  signOutLabel : string
}.

Inductive cardView :=
| NotSignedIn
| SignedIn (c : card).

(** The returned element of [AuthDisplay], lines 83-184. *)
Definition render (user : option User) (isSigningOut : bool) : cardView :=
  match user with
  | None => NotSignedIn
  | Some u =>
      SignedIn
        {| badge := providerBadge u;
           avatar := AuthDisplay.profileAvatar u;
           nameText := AuthDisplay.getDisplayName user;
           emailText := email u;
           idText := idLabel u;
           buttonsDisabled := isSigningOut;
           signOutLabel := if isSigningOut then "Signing out..." else "Sign Out" |}
  end.

End ProfileCard.

(** ** Observations on a log *)

(** The calls made on the collaborators, in order. *)
Definition isCall (ev : event) : bool :=
  match ev with
  | GoogleConfigure _ | GoogleHasPlayServices | GoogleSignOut | GoogleSignIn
  | SupabaseGetSession | SupabaseSignInWithIdToken _ _ | SupabaseSignOut => true
  | _ => false
  end.

Definition callsOf (l : list event) : list event := filter isCall l.

(** The blocking prompts shown, as title and message, in order. *)
Fixpoint alertsOf (l : list event) : list (string * string) :=
  match l with
  | [] => []
  | AlertAlert title message :: l' => (title, message) :: alertsOf l'
  | _ :: l' => alertsOf l'
  end.

(** Whether [l1] is an initial segment of [l2]. *)
Definition isPrefix {T} (l1 l2 : list T) : Prop := exists rest, l2 = l1 ++ rest.

(** A session whose user carries no metadata. *)
Definition bareSessionUser : SupabaseUser :=
  {| sb_id := "0123456789abcdef"; sb_email := Some "ada@x.com";
     user_metadata := None |}.

Definition restoringWorld : World :=
  {| platformOS := "android";
     webClientId := None;
     configure := Fulfilled tt;
     hasPlayServices := Fulfilled tt;
     googleSignOut := Fulfilled tt;
     googleSignIn := googleSignIn happyWorld;
     getSession := Fulfilled (Some (Some bareSessionUser));
     signInWithIdToken := signInWithIdToken happyWorld;
     supabaseSignOut := Fulfilled None |}.

(** The provider sign-in rejects with a plain object carrying a status code
    and a message of its own. *)
Definition cancelledWorld : World :=
  {| platformOS := "android";
     webClientId := Some "client-id";
     configure := Fulfilled tt;
     hasPlayServices := Fulfilled tt;
     googleSignOut := Fulfilled tt;
     googleSignIn := Rejected (JsObject (Some SIGN_IN_CANCELLED) (Some "code 12501"));
     getSession := Fulfilled None;
     signInWithIdToken := signInWithIdToken happyWorld;
     supabaseSignOut := Fulfilled None |}.

(** ** Laws of the effect monad and of the state fold *)

Section EffLaws.

Context {A B : Type}.

Lemma events_bind (m : Eff A) (f : A -> Eff B) :
  events (bind m f) =
  events m ++ match outcome m with Normal a => events (f a) | Throw _ => [] end.
Proof.
  destruct m as [l [a|e]]; unfold events, outcome; simpl.
  - destruct (f a); reflexivity.
  - now rewrite app_nil_r.
Qed.

Lemma outcome_bind (m : Eff A) (f : A -> Eff B) :
  outcome (bind m f) =
  match outcome m with Normal a => outcome (f a) | Throw e => Throw e end.
Proof.
  destruct m as [l [a|e]]; unfold outcome; simpl; [destruct (f a)|]; reflexivity.
Qed.

Lemma events_tryCatch (m : Eff A) (h : thrown -> Eff A) :
  events (tryCatch m h) =
  events m ++ match outcome m with Normal _ => [] | Throw e => events (h e) end.
Proof.
  destruct m as [l [a|e]]; unfold events, outcome; simpl.
  - now rewrite app_nil_r.
  - destruct (h e); reflexivity.
Qed.

Lemma events_tryFinally (m : Eff A) (fin : Eff unit) :
  events (tryFinally m fin) = events m ++ events fin.
Proof. destruct m, fin; reflexivity. Qed.

End EffLaws.

Lemma applyEvents_app s l1 l2 :
  applyEvents s (l1 ++ l2) = applyEvents (applyEvents s l1) l2.
Proof.
  revert s; induction l1 as [|ev l1 IH]; intro s; simpl; [reflexivity|].
  destruct ev; apply IH.
Qed.

Lemma stateTrace_app s l1 l2 :
  stateTrace s (l1 ++ l2) = stateTrace s l1 ++ stateTrace (applyEvents s l1) l2.
Proof.
  revert s; induction l1 as [|ev l1 IH]; intro s; simpl; [reflexivity|].
  destruct ev; simpl; rewrite ?IH; reflexivity.
Qed.

Lemma updatesOf_app l1 l2 : updatesOf (l1 ++ l2) = updatesOf l1 ++ updatesOf l2.
Proof.
  induction l1 as [|ev l1 IH]; simpl; [reflexivity|].
  destruct ev; simpl; rewrite IH; reflexivity.
Qed.

(** The fold only sees the updates. *)
Lemma applyEvents_updatesOf s l :
  applyEvents s l = fold_left spread (updatesOf l) s.
Proof.
  revert s; induction l as [|ev l IH]; intro s; simpl; [reflexivity|].
  destruct ev; simpl; apply IH.
Qed.

Lemma last_cons_default {T} (l : list T) (x d : T) :
  last (x :: l) d = last l x.
Proof.
  revert x d; induction l as [|y l IH]; intros x d; [reflexivity|].
  change (last (x :: y :: l) d) with (last (y :: l) d).
  rewrite (IH y d). symmetry. apply IH.
Qed.

(** The last state of a trace is the folded state. *)
Lemma stateTrace_last s l :
  last (stateTrace s l) s = applyEvents s l.
Proof.
  revert s; induction l as [|ev l IH]; intro s; [reflexivity|].
  destruct ev; try apply IH.
  simpl stateTrace; simpl applyEvents.
  rewrite last_cons_default. apply IH.
Qed.

(** An update that does not write [isConfigured] leaves it alone, and so
    does a log of such updates. *)
Lemma applyEvents_isConfigured s l :
  forallb (fun u => negb (writesConfigured u)) (updatesOf l) = true ->
  isConfigured (applyEvents s l) = isConfigured s.
Proof.
  revert s; induction l as [|ev l IH]; intros s H; [reflexivity|].
  destruct ev; simpl in *; try (apply IH; assumption).
  apply andb_prop in H as [Hu Hl].
  rewrite (IH _ Hl). unfold writesConfigured in Hu; simpl.
  destruct (p_isConfigured updates); [discriminate|reflexivity].
Qed.

(** Likewise for [user]. *)
Lemma applyEvents_user s l :
  forallb (fun u => match p_user u with None => true | Some _ => false end)
          (updatesOf l) = true ->
  user (applyEvents s l) = user s.
Proof.
  revert s; induction l as [|ev l IH]; intros s H; [reflexivity|].
  destruct ev; simpl in *; try (apply IH; assumption).
  apply andb_prop in H as [Hu Hl].
  rewrite (IH _ Hl). simpl. destruct (p_user updates); [discriminate|reflexivity].
Qed.

(** ** Case analysis of a sign-in *)

#[local] Arguments String.append : simpl never.

Ltac unfold_eff :=
  unfold Auth.signInWithGoogle, Auth.signOut, Auth.signInTry, Auth.signOutTry,
    Auth.signInCatch, Auth.signOutCatch, Auth.setLoadingFalse,
    Auth.updateAuthState, Auth.succeeded, tryFinally, tryCatch, bind, await,
    emit, throw, ret, events, outcome.

(** Follow [signInWithGoogle] through its checks, one case per exit. *)
Ltac walk_sign_in w a :=
  unfold_eff;
  destruct (String.eqb (platformOS w) "android") eqn:Hos;
  [ apply String.eqb_eq in Hos | apply String.eqb_neq in Hos ]; simpl;
  [ destruct (isConfigured a) eqn:Hcfg; simpl;
    [ destruct (hasPlayServices w) as [[]|e1] eqn:Hps; simpl;
      [ destruct (googleSignOut w) as [[]|e2] eqn:Hso; simpl;
        [ destruct (googleSignIn w) as [[d|]|e3] eqn:Hsi; simpl;
          [ destruct (Js.truthy (idToken d)) eqn:Htok; simpl;
            [ destruct (signInWithIdToken w "google" (Js.orDefault (idToken d) ""))
                as [resp|e4] eqn:Hbk; simpl;
              [ destruct (r_error resp) as [err|] eqn:Herr; simpl;
                [ | destruct (r_user resp) as [bu|] eqn:Hbu; simpl ]
              | ]
            | ]
          | | ]
        | ]
      | ]
    | ]
  | ].

Ltac path_facts :=
  unfold backendAnswered, providerAnswered, servicesAvailable, preconditionsHold;
  repeat split; eauto.

(** Every way out of the [try] block by a throw is one of the listed paths. *)
Lemma signInTry_throw_failure w a e :
  outcome (Auth.signInTry w a) = Throw e -> signInFailure w a e.
Proof.
  walk_sign_in w a; intro H; inversion H; subst.
  - eapply BackendRejected with (data := d) (resp := resp); path_facts.
  - eapply MissingBackendUser with (data := d) (resp := resp); path_facts.
  - eapply BackendThrew with (data := d); path_facts.
  - eapply MissingIdentityToken with (data := d); path_facts.
  - apply MissingProviderData; path_facts.
  - apply ProviderThrew; path_facts.
  - apply ResetThrew; path_facts.
  - apply ServiceUnavailable; path_facts.
  - apply NotConfigured; assumption.
  - apply UnsupportedPlatform; assumption.
Qed.

Ltac use_facts :=
  unfold backendAnswered, providerAnswered, servicesAvailable, preconditionsHold in *;
  repeat match goal with
         | H : _ /\ _ |- _ => destruct H
         end;
  repeat match goal with
         | H : platformOS _ <> _ |- _ => apply String.eqb_neq in H
         end;
  unfold_eff;
  repeat match goal with
         | H : _ = _ |- _ => rewrite H; simpl
         end.

(** Each listed path does leave the [try] block by throwing its value. *)
Lemma signInFailure_throw w a e :
  signInFailure w a e -> outcome (Auth.signInTry w a) = Throw e.
Proof.
  intro H; destruct H; use_facts; reflexivity.
Qed.

(** The sign-in runs to the end of its [try] block, or fails on a listed
    path. *)
Lemma signIn_succeeds_or_fails w a :
  Auth.succeeded (Auth.signInTry w a) = true \/ exists e, signInFailure w a e.
Proof.
  unfold Auth.succeeded.
  destruct (outcome (Auth.signInTry w a)) eqn:E; [left; reflexivity|].
  right; exists e; now apply signInTry_throw_failure.
Qed.

Ltac walk_sign_out w :=
  unfold_eff;
  destruct (googleSignOut w) as [[]|e1] eqn:Hso; simpl;
  destruct (supabaseSignOut w) as [[err|]|e2] eqn:Hbo; simpl.

(** A failed sign-in writes [user] nowhere. *)
Lemma signIn_failure_updates w a e :
  signInFailure w a e ->
  updatesOf (events (Auth.signInWithGoogle w a)) =
  [ entryUpdate;
    {| p_user := None; p_loading := None;
       p_error := Some (Some (Auth.signInErrorMessage e)); p_isConfigured := None |};
    {| p_user := None; p_loading := Some false; p_error := None;
       p_isConfigured := None |} ].
Proof.
  intro H; destruct H; use_facts; reflexivity.
Qed.

(** ** The claims *)

(** C3. Whenever the [try] block of [signInWithGoogle] is left by a throw,
    which happens on the listed paths only (unsupported platform, not
    configured, Play Services unavailable, no provider data, no identity
    token, backend rejection, no backend user, or an error thrown by a
    collaborator), the [user] of the state is the one held before;
    [isConfigured] is untouched too, and only [error] (the message of the
    failure) and [loading] are written. *)
Theorem signIn_failure_keeps_user
  (w : World) (captured s : AuthState) (e : thrown)
  (H : outcome (Auth.signInTry w captured) = Throw e) :
  signInFailure w captured e /\
  let s' := applyEvents s (events (Auth.signInWithGoogle w captured)) in
  user s' = user s /\ isConfigured s' = isConfigured s /\
  loading s' = false /\ error s' = Some (Auth.signInErrorMessage e).
Proof.
  apply signInTry_throw_failure in H. split; [exact H|].
  intro s'; subst s'.
  rewrite applyEvents_updatesOf, (signIn_failure_updates _ _ _ H).
  simpl; auto.
Qed.

Lemma signIn_failure_keeps_user_witness :
  outcome (Auth.signInTry rejectingWorld configuredState) =
    Throw (JsError "Supabase authentication failed: invalid token") /\
  signInFailure rejectingWorld configuredState
    (JsError "Supabase authentication failed: invalid token") /\
  (let s' := applyEvents restoredState
               (events (Auth.signInWithGoogle rejectingWorld configuredState)) in
   user s' = Some grace /\ isConfigured s' = true /\ loading s' = false /\
   error s' = Some "Supabase authentication failed: invalid token").
Proof.
  split; [reflexivity|].
  exact (signIn_failure_keeps_user rejectingWorld configuredState restoredState
           (JsError "Supabase authentication failed: invalid token") eq_refl).
Defined.

(** C7. When the provider answers with a profile and no identity token, the
    sign-in fails with the missing-token message without having called the
    backend: [error] is that message, [user] is as before (absent if it was
    absent) and [loading] is back to false. *)
Theorem signIn_missing_token_fails_before_backend
  (w : World) (captured s : AuthState) (data : GoogleData)
  (Hp : providerAnswered w captured (Some data))
  (Ht : Js.truthy (idToken data) = false) :
  let run := Auth.signInWithGoogle w captured in
  let s' := applyEvents s (events run) in
  existsb isBackendSignIn (events run) = false /\
  Auth.succeeded (Auth.signInTry w captured) = false /\
  error s' = Some "No ID token received from Google" /\
  user s' = user s /\ (user s = None -> user s' = None) /\
  loading s' = false.
Proof.
  intros run s'; subst run s'.
  assert (E : events (Auth.signInWithGoogle w captured) =
              [ SetAuthState entryUpdate; GoogleHasPlayServices; GoogleSignOut;
                GoogleSignIn; ConsoleError "Google Sign-In Error:";
                SetAuthState
                  {| p_user := None; p_loading := None;
                     p_error := Some (Some "No ID token received from Google");
                     p_isConfigured := None |};
                AlertAlert "Sign-In Failed" "No ID token received from Google";
                SetAuthState
                  {| p_user := None; p_loading := Some false; p_error := None;
                     p_isConfigured := None |} ]).
  { use_facts; reflexivity. }
  assert (O : Auth.succeeded (Auth.signInTry w captured) = false).
  { unfold Auth.succeeded.
    now rewrite (signInFailure_throw _ _ _ (MissingIdentityToken w captured data Hp Ht)). }
  rewrite E; simpl. repeat split; auto.
Qed.

Lemma signIn_missing_token_fails_before_backend_witness :
  providerAnswered noTokenWorld configuredState
    (Some {| g_user := adaGoogle; idToken := None |}) /\
  (let run := Auth.signInWithGoogle noTokenWorld configuredState in
   let s' := applyEvents Auth.initialAuthState (events run) in
   existsb isBackendSignIn (events run) = false /\
   Auth.succeeded (Auth.signInTry noTokenWorld configuredState) = false /\
   error s' = Some "No ID token received from Google" /\
   user s' = user Auth.initialAuthState /\
   (user Auth.initialAuthState = None -> user s' = None) /\
   loading s' = false).
Proof.
  assert (P : providerAnswered noTokenWorld configuredState
                (Some {| g_user := adaGoogle; idToken := None |})).
  { repeat split; reflexivity. }
  split; [exact P|].
  exact (signIn_missing_token_fails_before_backend noTokenWorld configuredState
           Auth.initialAuthState _ P eq_refl).
Defined.

(** What a sign-in that reaches the end of its [try] block went through, and
    the three updates it queued. *)
Lemma signIn_success_path w a :
  Auth.succeeded (Auth.signInTry w a) = true ->
  exists data resp backend,
    backendAnswered w a data resp /\ r_error resp = None /\
    r_user resp = Some backend /\
    updatesOf (events (Auth.signInWithGoogle w a)) =
    [ entryUpdate;
      {| p_user := Some (Some (Auth.userData backend (g_user data)));
         p_loading := None; p_error := Some None; p_isConfigured := None |};
      {| p_user := None; p_loading := Some false; p_error := None;
         p_isConfigured := None |} ].
Proof.
  walk_sign_in w a; intro H; try discriminate H.
  exists d, resp, bu. path_facts.
Qed.

Lemma orDefault_truthy a b : Js.truthy a = true -> Some (Js.orDefault a b) = a.
Proof.
  destruct a as [x|]; simpl; [|discriminate].
  destruct (String.eqb x ""); [discriminate|reflexivity].
Qed.

Lemma orDefault_falsy a b : Js.truthy a = false -> Js.orDefault a b = b.
Proof.
  destruct a as [x|]; simpl; [|reflexivity].
  destruct (String.eqb x ""); [reflexivity|discriminate].
Qed.

(** [v || ''] is [v] when [v] is a string and the empty string otherwise. *)
Lemma orDefault_empty a :
  Js.orDefault a "" = match a with Some x => x | None => "" end.
Proof.
  destruct a as [x|]; simpl; [|reflexivity].
  destruct (String.eqb x "") eqn:E; [|reflexivity].
  apply String.eqb_eq in E; now subst.
Qed.

(** C6. A sign-in that succeeds commits a user tagged ["google"], whose [id]
    is the backend's, whose [email] is the backend's when the backend gives
    one and the provider's otherwise, whose [displayName] and [photoURL] are
    the provider's name and photo, and leaves [error] absent. *)
Theorem signIn_success_commits_google_user
  (w : World) (captured s : AuthState)
  (H : Auth.succeeded (Auth.signInTry w captured) = true) :
  exists data resp backend u,
    backendAnswered w captured data resp /\ r_user resp = Some backend /\
    let s' := applyEvents s (events (Auth.signInWithGoogle w captured)) in
    user s' = Some u /\ error s' = None /\ loading s' = false /\
    provider u = Some "google" /\
    id u = sb_id backend /\
    (Js.truthy (sb_email backend) = true -> Some (email u) = sb_email backend) /\
    (Js.truthy (sb_email backend) = false -> email u = g_email (g_user data)) /\
    displayName u =
      Some (match g_name (g_user data) with Some n => n | None => "" end) /\
    photoURL u =
      Some (match g_photo (g_user data) with Some p => p | None => "" end).
Proof.
  destruct (signIn_success_path w captured H) as (data & resp & backend & Hb & _ & Hu & E).
  exists data, resp, backend, (Auth.userData backend (g_user data)).
  split; [exact Hb|]. split; [exact Hu|].
  intro s'; subst s'. rewrite applyEvents_updatesOf, E; simpl.
  repeat split.
  - apply orDefault_truthy.
  - apply orDefault_falsy.
  - now rewrite orDefault_empty.
  - now rewrite orDefault_empty.
Qed.

Lemma signIn_success_commits_google_user_witness :
  Auth.succeeded (Auth.signInTry happyWorld configuredState) = true /\
  exists data resp backend u,
    backendAnswered happyWorld configuredState data resp /\
    r_user resp = Some backend /\
    let s' := applyEvents restoredState
                (events (Auth.signInWithGoogle happyWorld configuredState)) in
    user s' = Some u /\ error s' = None /\ loading s' = false /\
    provider u = Some "google" /\
    id u = sb_id backend /\
    (Js.truthy (sb_email backend) = true -> Some (email u) = sb_email backend) /\
    (Js.truthy (sb_email backend) = false -> email u = g_email (g_user data)) /\
    displayName u =
      Some (match g_name (g_user data) with Some n => n | None => "" end) /\
    photoURL u =
      Some (match g_photo (g_user data) with Some p => p | None => "" end).
Proof.
  split; [reflexivity|].
  exact (signIn_success_commits_google_user happyWorld configuredState restoredState
           eq_refl).
Defined.

(** C9. After a successful sign-in the committed user's [displayName] and
    [photoURL] are strings, never absent: the empty string when the provider
    gives no name or no photo; with the empty name the placeholder shows
    ["?"]. *)
Theorem signIn_success_name_and_photo_are_strings
  (w : World) (captured s : AuthState)
  (H : Auth.succeeded (Auth.signInTry w captured) = true) :
  exists data u dn ph,
    googleSignIn w = Fulfilled (Some data) /\
    user (applyEvents s (events (Auth.signInWithGoogle w captured))) = Some u /\
    displayName u = Some dn /\ photoURL u = Some ph /\
    (Js.truthy (g_name (g_user data)) = false -> dn = "") /\
    (Js.truthy (g_photo (g_user data)) = false -> ph = "") /\
    (dn = "" -> AuthDisplay.placeholderInitials u = "?") /\
    (dn = "" -> ph = "" -> AuthDisplay.profileAvatar u = AuthDisplay.PlaceholderText "?").
Proof.
  destruct (signIn_success_path w captured H) as (data & resp & backend & Hb & _ & _ & E).
  exists data, (Auth.userData backend (g_user data)),
    (Js.orDefault (g_name (g_user data)) ""),
    (Js.orDefault (g_photo (g_user data)) "").
  rewrite applyEvents_updatesOf, E; simpl.
  destruct Hb as ((_ & _ & Hsi) & _).
  repeat split; try assumption; try apply orDefault_falsy.
  - intro Hd. unfold AuthDisplay.placeholderInitials; simpl. now rewrite Hd.
  - intros Hd Hp. unfold AuthDisplay.profileAvatar; simpl. now rewrite Hd, Hp.
Qed.

Lemma signIn_success_name_and_photo_are_strings_witness :
  Auth.succeeded (Auth.signInTry anonymousWorld configuredState) = true /\
  exists data u dn ph,
    googleSignIn anonymousWorld = Fulfilled (Some data) /\
    user (applyEvents Auth.initialAuthState
            (events (Auth.signInWithGoogle anonymousWorld configuredState))) = Some u /\
    displayName u = Some dn /\ photoURL u = Some ph /\
    (Js.truthy (g_name (g_user data)) = false -> dn = "") /\
    (Js.truthy (g_photo (g_user data)) = false -> ph = "") /\
    (dn = "" -> AuthDisplay.placeholderInitials u = "?") /\
    (dn = "" -> ph = "" -> AuthDisplay.profileAvatar u = AuthDisplay.PlaceholderText "?").
Proof.
  split; [reflexivity|].
  exact (signIn_success_name_and_photo_are_strings anonymousWorld configuredState
           Auth.initialAuthState eq_refl).
Defined.

(** A session restoration writes [user] at most. *)
Lemma checkExistingSession_updates w :
  Forall (fun u => p_loading u = None /\ p_error u = None /\ p_isConfigured u = None)
         (updatesOf (events (Auth.checkExistingSession w))).
Proof.
  unfold Auth.checkExistingSession, tryCatch, bind, await, emit, ret, events.
  destruct (getSession w) as [[[u|]|]|e]; simpl; repeat constructor.
Qed.

Lemma fold_spread_loading us s :
  Forall (fun u => p_loading u = None /\ p_error u = None /\ p_isConfigured u = None) us ->
  loading (fold_left spread us s) = loading s.
Proof.
  intro F; revert s; induction F as [|u us (Hl & _ & _) _ IH]; intro s; [reflexivity|].
  simpl. rewrite IH. simpl. now rewrite Hl.
Qed.

Lemma runOperation_loading_false o s :
  loading s = false -> loading (applyEvents s (events (Auth.runOperation o))) = false.
Proof.
  intro Hs; destruct o as [w a|w|w]; simpl.
  - walk_sign_in w a; reflexivity.
  - walk_sign_out w; reflexivity.
  - rewrite applyEvents_updatesOf, fold_spread_loading; [assumption|].
    apply checkExistingSession_updates.
Qed.

(** C4. Every run of [signInWithGoogle] and of [signOut] writes
    [loading: true] first and [loading: false] last, whatever the outcome:
    [loading] is true in every state of the span and false in the state the
    operation leaves; from the state at mount, [loading] is false after any
    sequence of operations. *)
Theorem loading_spans_every_operation (w : World) (captured s : AuthState) :
  loadingSpan s (events (Auth.signInWithGoogle w captured)) /\
  loadingSpan s (events (Auth.signOut w)) /\
  forall os, loading (Auth.runOperations Auth.initialAuthState os) = false.
Proof.
  unfold loadingSpan, writesLoading; split; [|split].
  - walk_sign_in w captured;
      (split; [eexists; split; reflexivity|]);
      (split; [eexists; split; reflexivity|]);
      (split; [discriminate|]);
      (split; [repeat constructor|reflexivity]).
  - walk_sign_out w;
      (split; [eexists; split; reflexivity|]);
      (split; [eexists; split; reflexivity|]);
      (split; [discriminate|]);
      (split; [repeat constructor|reflexivity]).
  - intro os.
    assert (G : forall t, loading t = false -> loading (Auth.runOperations t os) = false).
    { induction os as [|o os IH]; intros t Ht; [exact Ht|].
      simpl. apply IH. now apply runOperation_loading_false. }
    apply G; reflexivity.
Qed.

(** Both operations begin with the same update. *)
Lemma signIn_events_head w a :
  exists rest, events (Auth.signInWithGoogle w a) = SetAuthState entryUpdate :: rest.
Proof.
  unfold Auth.signInWithGoogle, Auth.signInTry, Auth.updateAuthState.
  rewrite events_tryFinally, events_tryCatch, events_bind.
  simpl. eexists; reflexivity.
Qed.

Lemma signOut_events_head w :
  exists rest, events (Auth.signOut w) = SetAuthState entryUpdate :: rest.
Proof.
  unfold Auth.signOut, Auth.signOutTry, Auth.updateAuthState.
  rewrite events_tryFinally, events_tryCatch, events_bind.
  simpl. eexists; reflexivity.
Qed.

(** C10. [signInWithGoogle] and [signOut] start by writing
    [{ loading: true, error: null }]: the first state of the span has no
    error, and no state of the span depends on the error held before, so a
    message of an earlier attempt is never seen during a new one, whatever
    its outcome. *)
Theorem entry_clears_previous_error
  (w : World) (captured s : AuthState) (previous : string) :
  let entry := {| p_user := None; p_loading := Some true; p_error := Some None;
                  p_isConfigured := None |} in
  let before := withError s (Some previous) in
  let fresh := withError s None in
  (hd_error (events (Auth.signInWithGoogle w captured)) = Some (SetAuthState entry) /\
   option_map error
     (hd_error (stateTrace before (events (Auth.signInWithGoogle w captured)))) =
   Some None /\
   stateTrace before (events (Auth.signInWithGoogle w captured)) =
   stateTrace fresh (events (Auth.signInWithGoogle w captured))) /\
  (hd_error (events (Auth.signOut w)) = Some (SetAuthState entry) /\
   option_map error (hd_error (stateTrace before (events (Auth.signOut w)))) =
   Some None /\
   stateTrace before (events (Auth.signOut w)) =
   stateTrace fresh (events (Auth.signOut w))).
Proof.
  intros entry before fresh; subst entry before fresh.
  destruct (signIn_events_head w captured) as [r1 E1].
  destruct (signOut_events_head w) as [r2 E2].
  rewrite E1, E2. repeat split.
Qed.

(** C5. [signOut] leaves [user] absent whenever the backend sign-out
    succeeds, the provider-side sign-out having succeeded or thrown; when the
    backend answers with an error, [user] is as before and [error] is
    ["Sign-out failed: "] followed by the backend's message; when the backend
    call throws instead, [user] is as before and [error] is the message the
    [catch] clause computes. *)
Theorem signOut_contract (w : World) (s : AuthState) :
  let s' := applyEvents s (events (Auth.signOut w)) in
  loading s' = false /\ isConfigured s' = isConfigured s /\
  match supabaseSignOut w with
  | Fulfilled None =>
      Auth.succeeded (Auth.signOutTry w) = true /\ user s' = None /\ error s' = None
  | Fulfilled (Some err) =>
      Auth.succeeded (Auth.signOutTry w) = false /\ user s' = user s /\
      error s' = Some (String.append "Sign-out failed: " (ae_message err))
  | Rejected e =>
      Auth.succeeded (Auth.signOutTry w) = false /\ user s' = user s /\
      error s' = Some (Auth.signOutErrorMessage e)
  end.
Proof.
  intro s'; subst s'.
  walk_sign_out w; repeat split.
Qed.

(** The provider-side sign-out throwing changes nothing to what [signOut]
    leaves. *)
Lemma signOut_ignores_provider_failure (w : World) (s : AuthState) (e : thrown) :
  googleSignOut w = Rejected e ->
  supabaseSignOut w = Fulfilled None ->
  Auth.succeeded (Auth.signOutTry w) = true /\
  user (applyEvents s (events (Auth.signOut w))) = None /\
  error (applyEvents s (events (Auth.signOut w))) = None.
Proof.
  intros Hg Hb. unfold_eff. rewrite Hg; simpl. rewrite Hb; simpl. auto.
Qed.

(** The updates of the three operations never write [isConfigured]. *)
Lemma runOperation_never_writes_configured o :
  forallb (fun u => negb (writesConfigured u))
          (updatesOf (events (Auth.runOperation o))) = true.
Proof.
  destruct o as [w a|w|w]; simpl.
  - walk_sign_in w a; reflexivity.
  - walk_sign_out w; reflexivity.
  - unfold Auth.checkExistingSession, tryCatch, bind, await, emit, ret, events.
    destruct (getSession w) as [[[u|]|]|e]; reflexivity.
Qed.

Lemma runOperations_isConfigured s os :
  isConfigured (Auth.runOperations s os) = isConfigured s.
Proof.
  revert s; induction os as [|o os IH]; intro s; [reflexivity|].
  simpl. rewrite IH. apply applyEvents_isConfigured.
  apply runOperation_never_writes_configured.
Qed.

(** What [configureGoogleSignIn] returns. *)
Lemma configureGoogleSignIn_outcome w :
  outcome (Auth.configureGoogleSignIn w) =
  Normal (Js.truthy (webClientId w) &&
          match configure w with Fulfilled _ => true | Rejected _ => false end).
Proof.
  unfold Auth.configureGoogleSignIn, tryCatch, bind, await, emit, ret, outcome.
  destruct (webClientId w) as [cid|]; simpl; [|reflexivity].
  destruct (String.eqb cid ""); simpl; [reflexivity|].
  destruct (configure w); reflexivity.
Qed.

(** C8. The state at mount is [user] absent, [loading] false, [error]
    absent, [isConfigured] false.  The startup effect writes [isConfigured]
    exactly once, with what [configureGoogleSignIn] returned; no update of a
    sign-in, a sign-out or a session restoration writes it, so it keeps its
    value (true stays true) through any sequence of them. *)
Theorem configured_written_once_at_startup :
  Auth.initialAuthState =
    {| user := None; loading := false; error := None; isConfigured := false |} /\
  (forall w,
     length (filter writesConfigured (updatesOf (events (Auth.onMount w)))) = 1 /\
     outcome (Auth.configureGoogleSignIn w) =
       Normal (isConfigured (applyEvents Auth.initialAuthState
                               (events (Auth.onMount w))))) /\
  (forall o,
     forallb (fun u => negb (writesConfigured u))
             (updatesOf (events (Auth.runOperation o))) = true) /\
  (forall s os, isConfigured (Auth.runOperations s os) = isConfigured s).
Proof.
  split; [reflexivity|]. split; [|split].
  - intro w. unfold Auth.onMount, Auth.configureGoogleSignIn, Auth.checkExistingSession,
      tryCatch, bind, await, emit, ret, events, outcome.
    destruct (webClientId w) as [cid|]; simpl;
      [destruct (String.eqb cid ""); simpl; [|destruct (configure w) as [[]|ec]; simpl]|];
      destruct (getSession w) as [[[u|]|]|e]; simpl; split; reflexivity.
  - apply runOperation_never_writes_configured.
  - apply runOperations_isConfigured.
Qed.

(** A rejection of the provider-side sign-out inside [signInWithGoogle]
    reaches the [catch] clause: the sign-in fails with that value. *)
Lemma signIn_reset_rejection_propagates w a e :
  servicesAvailable w a -> googleSignOut w = Rejected e ->
  outcome (Auth.signInTry w a) = Throw e /\
  existsb isProviderSignIn (events (Auth.signInWithGoogle w a)) = false.
Proof.
  intros Hs Hr. split.
  - apply signInFailure_throw. now apply ResetThrew.
  - use_facts; reflexivity.
Qed.

(** C1. With the platform supported, the client configured and Play Services
    available, a provider-side sign-out that rejects during the reset makes
    [signInWithGoogle] fail: the provider sign-in is never called, [user]
    stays absent and [error] is the rejection's message; the same world with
    the reset fulfilled signs in, and [signOut] in the same world swallows
    the same rejection. *)
Theorem signIn_reset_failure_aborts_sign_in :
  let run := Auth.signInWithGoogle resetFailsWorld configuredState in
  let s' := applyEvents Auth.initialAuthState (events run) in
  googleSignOut resetFailsWorld = Rejected (JsError "sign-out rejected") /\
  Auth.succeeded (Auth.signInTry resetFailsWorld configuredState) = false /\
  existsb isProviderSignIn (events run) = false /\
  user s' = None /\ error s' = Some "sign-out rejected" /\
  Auth.succeeded (Auth.signInTry happyWorld configuredState) = true /\
  Auth.succeeded (Auth.signOutTry resetFailsWorld) = true.
Proof. repeat split. Qed.

(** C2, as stated, fails: for a user without a display name whose email is
    ["ada@x.com"] the placeholder shows ["?"], not ["A"]; the email is not
    consulted (only [getDisplayName] falls back on it). *)
Lemma initials_from_email_counterexample :
  displayName adaNoName = None /\ email adaNoName = "ada@x.com" /\
  AuthDisplay.placeholderInitials adaNoName = "?" /\
  AuthDisplay.placeholderInitials adaNoName <> "A" /\
  AuthDisplay.getDisplayName (Some adaNoName) = "Ada".
Proof. repeat split; discriminate. Qed.

(** ** Tokens of a trimmed name *)

Lemma split_not_nil sep s : Js.split sep s <> [].
Proof.
  destruct s as [|c r]; simpl; [discriminate|].
  destruct (Ascii.eqb c sep); [discriminate|].
  destruct (Js.split sep r); discriminate.
Qed.

Lemma last_default_irrelevant {T} (l : list T) (d1 d2 : T) :
  l <> [] -> last l d1 = last l d2.
Proof.
  destruct l as [|x l]; [congruence|]. intros _.
  now rewrite !last_cons_default.
Qed.

Lemma space_is_space c : Ascii.eqb c " " = true -> Js.isSpace c = true.
Proof. intro H; apply Ascii.eqb_eq in H; subst; reflexivity. Qed.

Lemma not_space_neq c : Js.isSpace c = false -> Ascii.eqb c " " = false.
Proof.
  intro H; destruct (Ascii.eqb c " ") eqn:E; [|reflexivity].
  apply space_is_space in E; congruence.
Qed.

Lemma trimStart_head s :
  Js.trimStart s = "" \/
  exists c r, Js.trimStart s = String c r /\ Js.isSpace c = false.
Proof.
  induction s as [|c r IH]; simpl; [now left|].
  destruct (Js.isSpace c) eqn:E; [exact IH|].
  right; exists c, r; split; [reflexivity|exact E].
Qed.

Lemma trimEnd_head c r :
  Js.isSpace c = false -> exists r', Js.trimEnd (String c r) = String c r'.
Proof.
  intro H; simpl. destruct (Js.trimEnd r) as [|c' r'']; rewrite ?H; eexists; reflexivity.
Qed.

Lemma trimEnd_last s :
  Js.trimEnd s = "" \/
  exists c, lastChar (Js.trimEnd s) = Some c /\ Js.isSpace c = false.
Proof.
  induction s as [|c r IH]; simpl; [now left|].
  destruct (Js.trimEnd r) as [|c' r'] eqn:E.
  - destruct (Js.isSpace c) eqn:Hc; [now left|].
    right; exists c; split; [reflexivity|exact Hc].
  - right. destruct IH as [IH|(c0 & Hl & Hs)]; [discriminate|].
    exists c0; split; [exact Hl|exact Hs].
Qed.

Lemma split_hd sep c r :
  Ascii.eqb c sep = false ->
  exists r', hd "" (Js.split sep (String c r)) = String c r'.
Proof.
  intro H; simpl; rewrite H.
  destruct (Js.split sep r); eexists; reflexivity.
Qed.

Lemma split_last sep s c :
  lastChar s = Some c -> Ascii.eqb c sep = false ->
  exists c' r', last (Js.split sep s) "" = String c' r'.
Proof.
  induction s as [|a r IH]; intros Hl Hc; [discriminate|].
  destruct r as [|b r'].
  - simpl in Hl; injection Hl as ->. simpl; rewrite Hc. now exists c, "".
  - assert (Hl' : lastChar (String b r') = Some c) by exact Hl.
    destruct (IH Hl' Hc) as (c' & t' & E).
    change (Js.split sep (String a (String b r'))) with
      (if Ascii.eqb a sep then "" :: Js.split sep (String b r')
       else match Js.split sep (String b r') with
            | [] => [String a ""]
            | t :: ts => String a t :: ts
            end).
    destruct (Ascii.eqb a sep).
    + rewrite last_cons_default. now exists c', t'.
    + destruct (Js.split sep (String b r')) as [|t ts] eqn:S;
        [now destruct (split_not_nil sep (String b r'))|].
      destruct ts as [|y ys].
      * now exists a, t.
      * rewrite last_cons_default.
        rewrite last_cons_default in E.
        rewrite (last_default_irrelevant (y :: ys) (String a t) t) by discriminate.
        now exists c', t'.
Qed.

(** With two tokens or more, the first and the last token of the trimmed
    name are not empty, and the initials are their first letters in upper
    case. *)
Lemma getInitials_two_tokens name :
  name <> "" ->
  2 <= length (Js.split " " (Js.trim name)) ->
  exists c1 r1 c2 r2,
    hd "" (Js.split " " (Js.trim name)) = String c1 r1 /\
    last (Js.split " " (Js.trim name)) "" = String c2 r2 /\
    AuthDisplay.getInitials (Some name) =
    String (Js.upperChar c1) (String (Js.upperChar c2) "").
Proof.
  intros Hne Hlen.
  assert (Hh : exists c r, Js.trim name = String c r /\ Js.isSpace c = false).
  { unfold Js.trim in *.
    destruct (trimStart_head name) as [E|(c & r & E & Hc)].
    - rewrite E in Hlen; simpl in Hlen; lia.
    - rewrite E. destruct (trimEnd_head c r Hc) as [r' E']. now exists c, r'. }
  destruct Hh as (c & r & Et & Hc).
  assert (Hl : exists c', lastChar (Js.trim name) = Some c' /\ Js.isSpace c' = false).
  { unfold Js.trim in *. destruct (trimEnd_last (Js.trimStart name)) as [E|H]; [|exact H].
    rewrite E in Et; discriminate. }
  destruct Hl as (c' & Hl & Hc').
  destruct (split_last " " _ c' Hl (not_space_neq _ Hc')) as (c2 & r2 & E2).
  assert (E1 : exists r1, hd "" (Js.split " " (Js.trim name)) = String c r1).
  { rewrite Et. apply split_hd, not_space_neq, Hc. }
  destruct E1 as (r1 & E1).
  exists c, r1, c2, r2. split; [exact E1|]. split; [exact E2|].
  unfold AuthDisplay.getInitials.
  destruct (String.eqb name "") eqn:En; [apply String.eqb_eq in En; congruence|].
  apply Nat.leb_le in Hlen. rewrite Hlen, E1, E2. reflexivity.
Qed.

(** C2, amended. The placeholder's initials come from [displayName] alone:
    ["Ada Lovelace"] gives ["AL"]; a name with two tokens or more gives the
    first letters of its first and last token in upper case, a name of one
    token the upper-case first character of the name; a user whose
    [displayName] is absent or empty gets ["?"] whatever the email is
    (["ada@x.com"] included). *)
Theorem placeholder_initials_from_display_name :
  AuthDisplay.getInitials (Some "Ada Lovelace") = "AL" /\
  AuthDisplay.placeholderInitials adaNoName = "?" /\
  (forall i e ph pr,
     AuthDisplay.placeholderInitials (mkUser i e None ph pr) = "?" /\
     AuthDisplay.placeholderInitials (mkUser i e (Some "") ph pr) = "?") /\
  (forall i e name ph pr,
     let shown := AuthDisplay.placeholderInitials (mkUser i e (Some name) ph pr) in
     let names := Js.split " " (Js.trim name) in
     if String.eqb name "" then shown = "?"
     else if (2 <=? length names)%nat then
       exists c1 r1 c2 r2,
         hd "" names = String c1 r1 /\ last names "" = String c2 r2 /\
         shown = String (Js.upperChar c1) (String (Js.upperChar c2) "")
     else shown = Js.toUpperCase (Js.charAt0 name)).
Proof.
  split; [reflexivity|]. split; [reflexivity|]. split; [split; reflexivity|].
  intros i e name ph pr shown names; subst shown names.
  unfold AuthDisplay.placeholderInitials; simpl displayName.
  destruct (String.eqb name "") eqn:En.
  - unfold AuthDisplay.getInitials; now rewrite En.
  - destruct (2 <=? length (Js.split " " (Js.trim name)))%nat eqn:El.
    + apply getInitials_two_tokens.
      * now apply String.eqb_neq.
      * now apply Nat.leb_le.
    + unfold AuthDisplay.getInitials; now rewrite En, El.
Qed.

(** ** Further properties of the controller *)

(** X1. No operation of the controller lets an error escape: the sign-in,
    the sign-out, the session restoration, the configuration and the mount
    effect all complete normally, whatever the collaborators answer. *)
Theorem controller_operations_never_throw (w : World) (captured : AuthState) :
  outcome (Auth.signInWithGoogle w captured) = Normal tt /\
  outcome (Auth.signOut w) = Normal tt /\
  outcome (Auth.checkExistingSession w) = Normal tt /\
  (exists b, outcome (Auth.configureGoogleSignIn w) = Normal b) /\
  outcome (Auth.onMount w) = Normal tt.
Proof.
  split; [walk_sign_in w captured; reflexivity|].
  split; [walk_sign_out w; reflexivity|].
  assert (R : outcome (Auth.checkExistingSession w) = Normal tt).
  { unfold Auth.checkExistingSession, tryCatch, bind, await, emit, ret, outcome.
    destruct (getSession w) as [[[u|]|]|e]; reflexivity. }
  split; [exact R|].
  split; [eexists; apply configureGoogleSignIn_outcome|].
  unfold Auth.onMount. rewrite outcome_bind, configureGoogleSignIn_outcome.
  rewrite outcome_bind. exact R.
Qed.

(** X2. When the platform is not Android, or the captured state is not
    configured, [signInWithGoogle] fails without calling any collaborator. *)
Theorem signIn_precondition_failure_calls_nothing
  (w : World) (captured s : AuthState)
  (H : platformOS w <> "android" \/ isConfigured captured = false) :
  callsOf (events (Auth.signInWithGoogle w captured)) = [] /\
  Auth.succeeded (Auth.signInTry w captured) = false /\
  (platformOS w <> "android" ->
   error (applyEvents s (events (Auth.signInWithGoogle w captured))) =
   Some "Google Sign-In is currently only available on Android") /\
  (platformOS w = "android" ->
   error (applyEvents s (events (Auth.signInWithGoogle w captured))) =
   Some "Google Sign-In is not properly configured").
Proof.
  unfold_eff.
  destruct (String.eqb (platformOS w) "android") eqn:Hos;
    [apply String.eqb_eq in Hos | apply String.eqb_neq in Hos]; simpl.
  - destruct H as [H|H]; [contradiction|]. rewrite H; simpl.
    repeat split; congruence.
  - repeat split; congruence.
Qed.

Lemma signIn_precondition_failure_calls_nothing_witness :
  (platformOS happyWorld <> "android" \/ isConfigured Auth.initialAuthState = false) /\
  callsOf (events (Auth.signInWithGoogle happyWorld Auth.initialAuthState)) = [] /\
  error (applyEvents Auth.initialAuthState
           (events (Auth.signInWithGoogle happyWorld Auth.initialAuthState))) =
  Some "Google Sign-In is not properly configured".
Proof.
  assert (H : platformOS happyWorld <> "android" \/
              isConfigured Auth.initialAuthState = false) by (right; reflexivity).
  split; [exact H|].
  destruct (signIn_precondition_failure_calls_nothing happyWorld Auth.initialAuthState
              Auth.initialAuthState H) as (C & _ & _ & E).
  split; [exact C|exact (E eq_refl)].
Defined.

(** X3. The collaborators are called in one order: Play Services check,
    provider sign-out, provider sign-in, identity-token exchange; a run calls
    an initial segment of that sequence, and a successful run all of it. *)
Theorem signIn_calls_in_order (w : World) (captured : AuthState) :
  exists token,
    isPrefix (callsOf (events (Auth.signInWithGoogle w captured)))
             [GoogleHasPlayServices; GoogleSignOut; GoogleSignIn;
              SupabaseSignInWithIdToken "google" token] /\
    (Auth.succeeded (Auth.signInTry w captured) = true ->
     callsOf (events (Auth.signInWithGoogle w captured)) =
     [GoogleHasPlayServices; GoogleSignOut; GoogleSignIn;
      SupabaseSignInWithIdToken "google" token]).
Proof.
  unfold isPrefix.
  walk_sign_in w captured;
    try (exists (Js.orDefault (idToken d) ""));
    try (exists "");
    (split; [eexists; reflexivity | try reflexivity; intro; discriminate]).
Qed.

(** X4. If the backend exchange is called at all, it is called for the
    provider ["google"] with the identity token the provider sign-in
    returned, which is not empty. *)
Theorem backend_receives_provider_token
  (w : World) (captured : AuthState) (prov token : string)
  (H : In (SupabaseSignInWithIdToken prov token)
          (events (Auth.signInWithGoogle w captured))) :
  prov = "google" /\ token <> "" /\
  exists data, googleSignIn w = Fulfilled (Some data) /\ idToken data = Some token.
Proof.
  revert H. walk_sign_in w captured; intro H;
    repeat (destruct H as [H|H]; try discriminate H); try contradiction;
    injection H as <- <-.
  all: destruct (idToken d) as [t|] eqn:Et; simpl in Htok; try discriminate Htok.
  all: simpl; destruct (String.eqb t "") eqn:E; simpl in Htok; try discriminate Htok.
  all: apply String.eqb_neq in E; split; [reflexivity|]; split; [exact E|].
  all: exists d; split; [reflexivity|exact Et].
Qed.

Lemma backend_receives_provider_token_witness :
  In (SupabaseSignInWithIdToken "google" "tok")
     (events (Auth.signInWithGoogle happyWorld configuredState)) /\
  "google" = "google" /\ "tok" <> "" /\
  exists data, googleSignIn happyWorld = Fulfilled (Some data) /\
               idToken data = Some "tok".
Proof.
  assert (H : In (SupabaseSignInWithIdToken "google" "tok")
                 (events (Auth.signInWithGoogle happyWorld configuredState))).
  { simpl. do 4 right. left. reflexivity. }
  split; [exact H|].
  exact (backend_receives_provider_token happyWorld configuredState "google" "tok" H).
Defined.

(** X5. A sign-in shows a prompt exactly when it fails: one prompt titled
    ["Sign-In Failed"] whose message is the one stored in [error]; a
    successful sign-in shows none and leaves [error] absent.  The same holds
    for the sign-out with the title ["Sign-Out Failed"]. *)
Theorem prompt_shown_iff_operation_fails (w : World) (captured s : AuthState) :
  (match outcome (Auth.signInTry w captured) with
   | Normal _ =>
       alertsOf (events (Auth.signInWithGoogle w captured)) = [] /\
       error (applyEvents s (events (Auth.signInWithGoogle w captured))) = None
   | Throw e =>
       alertsOf (events (Auth.signInWithGoogle w captured)) =
       [("Sign-In Failed", Auth.signInErrorMessage e)] /\
       error (applyEvents s (events (Auth.signInWithGoogle w captured))) =
       Some (Auth.signInErrorMessage e)
   end) /\
  (match outcome (Auth.signOutTry w) with
   | Normal _ =>
       alertsOf (events (Auth.signOut w)) = [] /\
       error (applyEvents s (events (Auth.signOut w))) = None
   | Throw e =>
       alertsOf (events (Auth.signOut w)) =
       [("Sign-Out Failed", Auth.signOutErrorMessage e)] /\
       error (applyEvents s (events (Auth.signOut w))) =
       Some (Auth.signOutErrorMessage e)
   end).
Proof.
  split.
  - walk_sign_in w captured; split; reflexivity.
  - walk_sign_out w; split; reflexivity.
Qed.

(** X6. A sign-out always calls the provider sign-out and then the backend
    sign-out, once each: the backend call is made even when the provider
    call has thrown. *)
Theorem signOut_calls_both_collaborators (w : World) :
  callsOf (events (Auth.signOut w)) = [GoogleSignOut; SupabaseSignOut].
Proof. walk_sign_out w; reflexivity. Qed.

(** X7. When the provider sign-in rejects with a plain object, [error] is
    the fixed text of its status code for the three known codes, whatever
    message the object carries; for any other code it is the object's
    message when that is a non-empty string and ["Google Sign-In failed"]
    otherwise.  The user is as before. *)
Theorem provider_status_code_decides_message
  (w : World) (captured s : AuthState) (code : option statusCode)
  (message : option string)
  (Hs : servicesAvailable w captured)
  (Hr : googleSignOut w = Fulfilled tt)
  (Hp : googleSignIn w = Rejected (JsObject code message)) :
  let s' := applyEvents s (events (Auth.signInWithGoogle w captured)) in
  user s' = user s /\
  error s' =
  Some (match code with
        | Some SIGN_IN_CANCELLED => "Sign-in was cancelled"
        | Some IN_PROGRESS => "Sign-in is already in progress"
        | Some PLAY_SERVICES_NOT_AVAILABLE => "Google Play Services is not available"
        | _ => match message with
               | Some m => if String.eqb m "" then "Google Sign-In failed" else m
               | None => "Google Sign-In failed"
               end
        end).
Proof.
  intro s'; subst s'. use_facts.
  destruct code as [[| | |c]|]; simpl; split; reflexivity.
Qed.

Lemma provider_status_code_decides_message_witness :
  servicesAvailable cancelledWorld configuredState /\
  googleSignOut cancelledWorld = Fulfilled tt /\
  googleSignIn cancelledWorld =
    Rejected (JsObject (Some SIGN_IN_CANCELLED) (Some "code 12501")) /\
  (let s' := applyEvents restoredState
               (events (Auth.signInWithGoogle cancelledWorld configuredState)) in
   user s' = Some grace /\ error s' = Some "Sign-in was cancelled").
Proof.
  assert (Hs : servicesAvailable cancelledWorld configuredState)
    by (repeat split; reflexivity).
  split; [exact Hs|]. split; [reflexivity|]. split; [reflexivity|].
  exact (provider_status_code_decides_message cancelledWorld configuredState
           restoredState (Some SIGN_IN_CANCELLED) (Some "code 12501")
           Hs eq_refl eq_refl).
Defined.

(** X8. A session restoration asks the backend for the session once and
    writes [user] at most: [loading], [error] and [isConfigured] are as
    before.  With a session it commits a user tagged ["google"] carrying the
    session's id (and the empty email when the session has none); without a
    session, or when the query throws, the state is unchanged and no prompt
    is shown. *)
Theorem checkExistingSession_writes_user_only (w : World) (s : AuthState) :
  let s' := applyEvents s (events (Auth.checkExistingSession w)) in
  callsOf (events (Auth.checkExistingSession w)) = [SupabaseGetSession] /\
  alertsOf (events (Auth.checkExistingSession w)) = [] /\
  loading s' = loading s /\ error s' = error s /\
  isConfigured s' = isConfigured s /\
  match getSession w with
  | Fulfilled (Some (Some u)) =>
      exists restored,
        user s' = Some restored /\ id restored = sb_id u /\
        provider restored = Some "google" /\
        (Js.truthy (sb_email u) = true -> Some (email restored) = sb_email u) /\
        (Js.truthy (sb_email u) = false -> email restored = "")
  | _ => user s' = user s
  end.
Proof.
  intro s'; subst s'.
  unfold Auth.checkExistingSession, tryCatch, bind, await, emit, ret, events.
  destruct (getSession w) as [[[u|]|]|e]; simpl; repeat split.
  exists (Auth.sessionUser u). repeat split.
  - apply orDefault_truthy.
  - apply orDefault_falsy.
Qed.

(** X9. The mount effect never calls [GoogleSignin.configure] without a
    non-empty client id, and queries the session once whether or not the
    configuration succeeded.  From the state at mount it leaves [loading]
    false, [error] absent, [isConfigured] true exactly when the client id is
    non-empty and the configuration did not throw, and [user] absent unless a
    session was found. *)
Theorem onMount_configures_and_restores (w : World) :
  let s' := applyEvents Auth.initialAuthState (events (Auth.onMount w)) in
  callsOf (events (Auth.onMount w)) =
    match webClientId w with
    | Some cid => if String.eqb cid "" then [] else [GoogleConfigure cid]
    | None => []
    end ++ [SupabaseGetSession] /\
  loading s' = false /\ error s' = None /\
  isConfigured s' =
    (Js.truthy (webClientId w) &&
     match configure w with Fulfilled _ => true | Rejected _ => false end) /\
  (user s' <> None <-> exists u, getSession w = Fulfilled (Some (Some u))).
Proof.
  intro s'; subst s'.
  unfold Auth.onMount, Auth.configureGoogleSignIn, Auth.checkExistingSession,
    tryCatch, bind, await, emit, ret, events.
  destruct (webClientId w) as [cid|]; simpl;
    [destruct (String.eqb cid ""); simpl; [|destruct (configure w) as [[]|ec]; simpl]|];
    destruct (getSession w) as [[[u|]|]|e]; simpl; repeat split;
    try discriminate; try (intros _; eexists; reflexivity);
    try (intros [u' Hu]; discriminate Hu); try (intro Hn; now destruct Hn).
Qed.

(** ** The screens over the controller's states *)

Lemma canPressSignIn_idle s :
  AuthScreen.canPressSignIn (AuthScreen.render s) =
  (isConfigured s && negb (loading s) &&
   match user s with None => true | Some _ => false end) /\
  IndexScreen.canPressSignIn (IndexScreen.render s) =
  (isConfigured s && negb (loading s) &&
   match user s with None => true | Some _ => false end).
Proof.
  unfold AuthScreen.render, IndexScreen.render.
  destruct (isConfigured s), (loading s), (user s); split; reflexivity.
Qed.

Lemma canPressSignIn_loading s :
  loading s = true ->
  AuthScreen.canPressSignIn (AuthScreen.render s) = false /\
  IndexScreen.canPressSignIn (IndexScreen.render s) = false.
Proof.
  intro H. destruct (canPressSignIn_idle s) as [E1 E2].
  rewrite E1, E2, H, andb_false_r. split; reflexivity.
Qed.

Lemma span_states_loading w a s :
  Forall (fun st => loading st = true)
         (removelast (stateTrace s (events (Auth.signInWithGoogle w a)))) /\
  Forall (fun st => loading st = true)
         (removelast (stateTrace s (events (Auth.signOut w)))).
Proof.
  split; [walk_sign_in w a | walk_sign_out w]; repeat constructor.
Qed.

(** X10. Both screens (the component and its copy in the app's index) let
    the sign-in be started in the same states: configured, no user, not
    loading.  In no state of the span of a sign-in or of a sign-out can it
    be started. *)
Theorem sign_in_cannot_start_in_flight (w : World) (captured s : AuthState) :
  (forall st,
     AuthScreen.canPressSignIn (AuthScreen.render st) =
     IndexScreen.canPressSignIn (IndexScreen.render st) /\
     (AuthScreen.canPressSignIn (AuthScreen.render st) = true <->
      isConfigured st = true /\ loading st = false /\ user st = None)) /\
  Forall (fun st =>
            AuthScreen.canPressSignIn (AuthScreen.render st) = false /\
            IndexScreen.canPressSignIn (IndexScreen.render st) = false)
         (removelast (stateTrace s (events (Auth.signInWithGoogle w captured)))) /\
  Forall (fun st =>
            AuthScreen.canPressSignIn (AuthScreen.render st) = false /\
            IndexScreen.canPressSignIn (IndexScreen.render st) = false)
         (removelast (stateTrace s (events (Auth.signOut w)))).
Proof.
  split; [|split].
  - intro st. destruct (canPressSignIn_idle st) as [E1 E2]. rewrite E1, E2.
    split; [reflexivity|].
    destruct (isConfigured st), (loading st), (user st); simpl;
      split; intro H; try discriminate; try reflexivity; auto;
      destruct H as (? & ? & ?); discriminate.
  - eapply Forall_impl; [|apply (span_states_loading w captured s)].
    intros st; apply canPressSignIn_loading.
  - eapply Forall_impl; [|apply (span_states_loading w captured s)].
    intros st; apply canPressSignIn_loading.
Qed.

(** X11. After a sign-in that failed, started from a configured state
    without a user, both screens show the sign-in control enabled again
    (a retry is possible), with the failure's message under it when that
    message is not empty. *)
Theorem failed_sign_in_offers_retry
  (w : World) (captured s : AuthState) (e : thrown)
  (H : outcome (Auth.signInTry w captured) = Throw e)
  (Hc : isConfigured s = true) (Hu : user s = None) :
  let s' := applyEvents s (events (Auth.signInWithGoogle w captured)) in
  let shown := if String.eqb (Auth.signInErrorMessage e) "" then None
               else Some (Auth.signInErrorMessage e) in
  AuthScreen.render s' =
    AuthScreen.SignInForm (AuthScreen.SignInButton false) shown /\
  IndexScreen.render s' =
    IndexScreen.SignInForm
      {| IndexScreen.b_disabled := false; IndexScreen.b_spinner := false;
         IndexScreen.b_label := "Sign in with Google" |} shown.
Proof.
  intros s' shown; subst s' shown.
  apply signInTry_throw_failure in H.
  unfold AuthScreen.render, IndexScreen.render, AuthScreen.errorText.
  rewrite applyEvents_updatesOf, (signIn_failure_updates _ _ _ H); simpl.
  rewrite Hc, Hu; simpl.
  destruct (String.eqb (Auth.signInErrorMessage e) ""); split; reflexivity.
Qed.

Lemma failed_sign_in_offers_retry_witness :
  outcome (Auth.signInTry rejectingWorld configuredState) =
    Throw (JsError "Supabase authentication failed: invalid token") /\
  isConfigured configuredState = true /\ user configuredState = None /\
  AuthScreen.render
    (applyEvents configuredState
       (events (Auth.signInWithGoogle rejectingWorld configuredState))) =
  AuthScreen.SignInForm (AuthScreen.SignInButton false)
    (Some "Supabase authentication failed: invalid token").
Proof.
  split; [reflexivity|]. split; [reflexivity|]. split; [reflexivity|].
  exact (proj1 (failed_sign_in_offers_retry rejectingWorld configuredState
                  configuredState
                  (JsError "Supabase authentication failed: invalid token")
                  eq_refl eq_refl eq_refl)).
Defined.

(** The flag the mount effect writes is what the configuration returned. *)
Lemma onMount_isConfigured w s :
  outcome (Auth.configureGoogleSignIn w) =
  Normal (isConfigured (applyEvents s (events (Auth.onMount w)))).
Proof.
  unfold Auth.onMount, Auth.configureGoogleSignIn, Auth.checkExistingSession,
    tryCatch, bind, await, emit, ret, events, outcome.
  destruct (webClientId w) as [cid|]; simpl;
    [destruct (String.eqb cid ""); simpl; [|destruct (configure w) as [[]|ec]; simpl]|];
    destruct (getSession w) as [[[u|]|]|e]; reflexivity.
Qed.

(** X12. When the configuration fails at mount (no client id, or
    [configure] throwing), both screens show the configuration error after
    the mount and after any sequence of sign-ins, sign-outs and session
    restorations, even with a user restored from a session: the sign-in can
    never be started. *)
Theorem failed_configuration_is_terminal
  (w : World) (os : list Auth.operation)
  (H : outcome (Auth.configureGoogleSignIn w) = Normal false) :
  let s := Auth.runOperations
             (applyEvents Auth.initialAuthState (events (Auth.onMount w))) os in
  AuthScreen.render s = AuthScreen.ConfigurationError /\
  IndexScreen.render s = IndexScreen.ConfigurationError /\
  AuthScreen.canPressSignIn (AuthScreen.render s) = false.
Proof.
  intro s.
  assert (E : isConfigured s = false).
  { subst s. rewrite runOperations_isConfigured.
    rewrite (onMount_isConfigured w Auth.initialAuthState) in H.
    now injection H. }
  unfold AuthScreen.render, IndexScreen.render. rewrite E. repeat split.
Qed.

Lemma failed_configuration_is_terminal_witness :
  outcome (Auth.configureGoogleSignIn restoringWorld) = Normal false /\
  (let s := Auth.runOperations
              (applyEvents Auth.initialAuthState (events (Auth.onMount restoringWorld)))
              [Auth.OpSignIn happyWorld configuredState] in
   user s <> None /\
   AuthScreen.render s = AuthScreen.ConfigurationError /\
   IndexScreen.render s = IndexScreen.ConfigurationError /\
   AuthScreen.canPressSignIn (AuthScreen.render s) = false).
Proof.
  split; [reflexivity|].
  split; [discriminate|].
  exact (failed_configuration_is_terminal restoringWorld
           [Auth.OpSignIn happyWorld configuredState] eq_refl).
Defined.

(** ** Invariants over sequences of operations *)

Definition taggedGoogle (s : AuthState) : Prop :=
  match user s with
  | Some u => provider u = Some "google"
  | None => True
  end.

Lemma runOperation_taggedGoogle o s :
  taggedGoogle s -> taggedGoogle (applyEvents s (events (Auth.runOperation o))).
Proof.
  unfold taggedGoogle; intro H; destruct o as [w a|w|w]; simpl.
  - walk_sign_in w a; solve [exact H | reflexivity].
  - walk_sign_out w; solve [exact H | exact I].
  - unfold Auth.checkExistingSession, tryCatch, bind, await, emit, ret, events.
    destruct (getSession w) as [[[u|]|]|e]; simpl; solve [exact H | reflexivity].
Qed.

Lemma onMount_taggedGoogle w :
  taggedGoogle (applyEvents Auth.initialAuthState (events (Auth.onMount w))).
Proof.
  unfold taggedGoogle, Auth.onMount, Auth.configureGoogleSignIn,
    Auth.checkExistingSession, tryCatch, bind, await, emit, ret, events.
  destruct (webClientId w) as [cid|]; simpl;
    [destruct (String.eqb cid ""); simpl; [|destruct (configure w) as [[]|ec]; simpl]|];
    destruct (getSession w) as [[[u|]|]|e]; simpl; solve [exact I | reflexivity].
Qed.

Lemma runOperations_taggedGoogle os s :
  taggedGoogle s -> taggedGoogle (Auth.runOperations s os).
Proof.
  revert s; induction os as [|o os IH]; intros s H; [exact H|].
  simpl. apply IH. now apply runOperation_taggedGoogle.
Qed.

(** X13. Every user the controller ever holds, after the mount and any
    sequence of sign-ins, sign-outs and session restorations, is tagged
    ["google"]; the card's provider badge for it reads ["Google"]. *)
Theorem every_held_user_is_tagged_google (w : World) (os : list Auth.operation) :
  match user (Auth.runOperations
                (applyEvents Auth.initialAuthState (events (Auth.onMount w))) os) with
  | Some u => provider u = Some "google" /\
              ProfileCard.providerBadge u = Some "Google"
  | None => True
  end.
Proof.
  pose proof (runOperations_taggedGoogle os _ (onMount_taggedGoogle w)) as H.
  unfold taggedGoogle in H.
  destruct (user _) as [u|]; [|exact I].
  split; [exact H|]. unfold ProfileCard.providerBadge. now rewrite H.
Qed.

(** X14. A successful sign-in followed by a sign-out whose backend call
    succeeds brings any state back to signed out: no user, no error, not
    loading, [isConfigured] as it was. *)
Theorem sign_in_then_sign_out_round_trip
  (w1 w2 : World) (captured s : AuthState)
  (Hin : Auth.succeeded (Auth.signInTry w1 captured) = true)
  (Hout : supabaseSignOut w2 = Fulfilled None) :
  applyEvents (applyEvents s (events (Auth.signInWithGoogle w1 captured)))
              (events (Auth.signOut w2)) =
  {| user := None; loading := false; error := None;
     isConfigured := isConfigured s |}.
Proof.
  destruct (signIn_success_path w1 captured Hin) as (d & r & b & _ & _ & _ & E).
  rewrite (applyEvents_updatesOf s), E.
  unfold_eff. rewrite Hout.
  destruct (googleSignOut w2) as [[]|e]; reflexivity.
Qed.

Lemma sign_in_then_sign_out_round_trip_witness :
  Auth.succeeded (Auth.signInTry happyWorld configuredState) = true /\
  supabaseSignOut resetFailsWorld = Fulfilled None /\
  applyEvents (applyEvents restoredState
                 (events (Auth.signInWithGoogle happyWorld configuredState)))
              (events (Auth.signOut resetFailsWorld)) =
  {| user := None; loading := false; error := None; isConfigured := true |}.
Proof.
  split; [reflexivity|]. split; [reflexivity|].
  exact (sign_in_then_sign_out_round_trip happyWorld resetFailsWorld configuredState
           restoredState eq_refl eq_refl).
Defined.

(** ** The actions of the profile card *)

Lemma signingOutWrites_callback l tl :
  ProfileCard.signingOutWrites (map ProfileCard.OnSignOut l ++ tl) =
  ProfileCard.signingOutWrites tl.
Proof. induction l as [|ev l IH]; simpl; auto. Qed.

Lemma callbackEvents_callback l tl :
  ProfileCard.callbackEvents (map ProfileCard.OnSignOut l ++ tl) =
  l ++ ProfileCard.callbackEvents tl.
Proof. induction l as [|ev l IH]; simpl; [reflexivity|now rewrite IH]. Qed.

Lemma alertTitles_callback l tl :
  ProfileCard.alertTitles (map ProfileCard.OnSignOut l ++ tl) =
  ProfileCard.alertTitles tl.
Proof. induction l as [|ev l IH]; simpl; auto. Qed.

(** The log of [handleSignOut], spelled out. *)
Lemma handleSignOut_log (onSignOut : Eff unit) :
  ProfileCard.handleSignOut onSignOut =
  (ProfileCard.SetIsSigningOut true ::
     map ProfileCard.OnSignOut (events onSignOut) ++
     match outcome onSignOut with
     | Normal _ => []
     | Throw _ =>
         [ProfileCard.CardConsoleError "Sign out error in display:";
          ProfileCard.CardAlert "Sign Out Error"
            "There was a problem signing you out. Please try again." ["OK"]]
     end ++ [ProfileCard.SetIsSigningOut false],
   Normal tt).
Proof.
  destruct onSignOut as [l [[]|e]]; unfold ProfileCard.handleSignOut,
    ProfileCard.tryFinally, ProfileCard.tryCatch, ProfileCard.bind,
    ProfileCard.emit, ProfileCard.awaitCallback, events, outcome; simpl.
  - reflexivity.
  - now rewrite <- app_assoc.
Qed.

(** X15. [handleSignOut] never throws, whatever its callback does: it sets
    [isSigningOut] to true, runs the callback, and sets the flag back to
    false; it shows the ["Sign Out Error"] prompt exactly when the callback
    threw. *)
Theorem handleSignOut_resets_flag (onSignOut : Eff unit) :
  let run := ProfileCard.handleSignOut onSignOut in
  snd run = Normal tt /\
  ProfileCard.signingOutWrites (fst run) = [true; false] /\
  ProfileCard.callbackEvents (fst run) = events onSignOut /\
  hd_error (fst run) = Some (ProfileCard.SetIsSigningOut true) /\
  last (fst run) (ProfileCard.SetIsSigningOut true) =
    ProfileCard.SetIsSigningOut false /\
  ProfileCard.alertTitles (fst run) =
    match outcome onSignOut with
    | Normal _ => []
    | Throw _ => ["Sign Out Error"]
    end.
Proof.
  intro run; subst run. rewrite handleSignOut_log.
  cbn [fst snd hd_error ProfileCard.signingOutWrites ProfileCard.callbackEvents
       ProfileCard.alertTitles].
  rewrite signingOutWrites_callback, callbackEvents_callback, alertTitles_callback.
  rewrite last_cons_default, app_assoc, last_last.
  destruct (outcome onSignOut); simpl; rewrite app_nil_r; repeat split.
Qed.

(** X16. The sign-out of the card is gated by its confirmation prompt:
    when the user dismisses it or presses ["Cancel"], the callback is not
    run and [isSigningOut] is not touched.  When they do and the callback is the
    controller's [signOut], the card runs it once and never shows its own
    ["Sign Out Error"] prompt, the controller having recovered every
    failure. *)
Theorem confirmSignOut_gates_sign_out (w : World) (onSignOut : Eff unit) :
  (let dismissed := ProfileCard.confirmSignOut None onSignOut in
   let cancelled :=
     ProfileCard.confirmSignOut (Some ProfileCard.PressCancel) onSignOut in
   ProfileCard.callbackEvents (fst dismissed) = [] /\
   ProfileCard.signingOutWrites (fst dismissed) = [] /\
   ProfileCard.callbackEvents (fst cancelled) = [] /\
   ProfileCard.signingOutWrites (fst cancelled) = []) /\
  (let run := ProfileCard.confirmSignOut (Some ProfileCard.PressSignOut)
                (Auth.signOut w) in
   ProfileCard.callbackEvents (fst run) = events (Auth.signOut w) /\
   ProfileCard.signingOutWrites (fst run) = [true; false] /\
   ProfileCard.alertTitles (fst run) = ["Sign Out"] /\
   snd run = Normal tt).
Proof.
  split.
  - repeat split.
  - unfold ProfileCard.confirmSignOut, ProfileCard.bind, ProfileCard.emit.
    rewrite handleSignOut_log.
    assert (O : outcome (Auth.signOut w) = Normal tt) by (walk_sign_out w; reflexivity).
    rewrite O.
    cbn [fst snd app ProfileCard.signingOutWrites ProfileCard.callbackEvents
         ProfileCard.alertTitles].
    rewrite signingOutWrites_callback, callbackEvents_callback, alertTitles_callback.
    simpl. rewrite app_nil_r. repeat split.
Qed.

(** ** The body of the profile card *)

Lemma substring_prefix n s : String.prefix (String.substring 0 n s) s = true.
Proof.
  revert s; induction n as [|n IH]; intros [|c r]; simpl; try reflexivity.
  rewrite IH. destruct (ascii_dec c c); [reflexivity|congruence].
Qed.

Lemma substring_length n s :
  String.length (String.substring 0 n s) = Nat.min n (String.length s).
Proof.
  revert s; induction n as [|n IH]; intros [|c r]; simpl; try reflexivity.
  now rewrite IH.
Qed.

Lemma substring_short n s :
  String.length s <= n -> String.substring 0 n s = s.
Proof.
  revert s; induction n as [|n IH]; intros [|c r] H; simpl in *;
    try reflexivity; try lia.
  rewrite IH; [reflexivity|lia].
Qed.

(** X17. The id line of the card shows a prefix of the user's id of at most
    eight characters between ["ID: "] and ["..."]: the whole id when it has
    eight characters or fewer, its first eight otherwise. *)
Theorem idLabel_shows_id_prefix (u : User) :
  exists shown,
    ProfileCard.idLabel u = String.append "ID: " (String.append shown "...") /\
    String.prefix shown (id u) = true /\
    String.length shown = Nat.min 8 (String.length (id u)) /\
    (String.length (id u) <= 8 -> shown = id u).
Proof.
  exists (String.substring 0 8 (id u)). split; [reflexivity|].
  split; [apply substring_prefix|]. split; [apply substring_length|].
  apply substring_short.
Qed.

Lemma upperChar_not_lower c : Js.isLower (Js.upperChar c) = false.
Proof. destruct c as [[] [] [] [] [] [] [] []]; reflexivity. Qed.

Lemma upperChar_space c : Js.isSpace c = true -> Js.upperChar c = c.
Proof. destruct c as [[] [] [] [] [] [] [] []]; intro H; try reflexivity; discriminate H. Qed.

(** X18. Whatever the name, [getInitials] returns one or two characters,
    none of them a lower-case ASCII letter. *)
Theorem getInitials_one_or_two_upper_chars (name : option string) :
  let initials := AuthDisplay.getInitials name in
  1 <= String.length initials <= 2 /\
  forallb (fun c => negb (Js.isLower c)) (list_ascii_of_string initials) = true.
Proof.
  intro initials; subst initials.
  destruct name as [name|]; [|simpl; split; [lia|reflexivity]].
  destruct (String.eqb name "") eqn:En.
  { unfold AuthDisplay.getInitials; rewrite En; simpl; split; [lia|reflexivity]. }
  destruct (2 <=? length (Js.split " " (Js.trim name)))%nat eqn:El.
  - apply String.eqb_neq in En. apply Nat.leb_le in El.
    destruct (getInitials_two_tokens name En El) as (c1 & r1 & c2 & r2 & _ & _ & E).
    rewrite E; simpl. rewrite !upperChar_not_lower. split; [lia|reflexivity].
  - unfold AuthDisplay.getInitials; rewrite En, El.
    destruct name as [|c r]; [discriminate En|].
    simpl. rewrite upperChar_not_lower. split; [lia|reflexivity].
Qed.

(** X19. A name that begins with white space and holds fewer than two
    tokens once trimmed gets that white-space character as its initials:
    the single-token branch reads the first character of the name as given,
    not of the trimmed name. *)
Theorem getInitials_leading_space_is_blank
  (c : ascii) (rest : string)
  (Hc : Js.isSpace c = true)
  (Hn : length (Js.split " " (Js.trim (String c rest))) < 2) :
  AuthDisplay.getInitials (Some (String c rest)) = String c "".
Proof.
  unfold AuthDisplay.getInitials.
  assert (E : (2 <=? length (Js.split " " (Js.trim (String c rest))))%nat = false)
    by (apply Nat.leb_gt; exact Hn).
  rewrite E. simpl. now rewrite (upperChar_space c Hc).
Qed.

Lemma getInitials_leading_space_is_blank_witness :
  Js.isSpace " " = true /\
  length (Js.split " " (Js.trim " ada")) < 2 /\
  AuthDisplay.getInitials (Some " ada") = " " /\
  AuthDisplay.getInitials (Some (Js.trim " ada")) = "A".
Proof.
  split; [reflexivity|]. split; [simpl; lia|].
  split; [|reflexivity].
  apply (getInitials_leading_space_is_blank " " "ada"); [reflexivity|simpl; lia].
Defined.

(** The piece before the first separator. *)
Lemma split_hd_before_separator sep local rest :
  (forall c, In c (list_ascii_of_string local) -> c <> sep) ->
  hd "" (Js.split sep (String.append local (String sep rest))) = local.
Proof.
  induction local as [|a l IH]; intro H; simpl.
  - now rewrite Ascii.eqb_refl.
  - assert (Ha : Ascii.eqb a sep = false).
    { apply Ascii.eqb_neq. apply H. now left. }
    rewrite Ha.
    assert (IH' : hd "" (Js.split sep (String.append l (String sep rest))) = l).
    { apply IH. intros c Hc. apply H. now right. }
    destruct (Js.split sep (String.append l (String sep rest))) as [|t ts] eqn:S.
    + now destruct (split_not_nil sep (String.append l (String sep rest))).
    + simpl in IH'. simpl. now rewrite IH'.
Qed.

(** X20. For a user without a display name (absent or empty) whose email is
    [local@domain], [getDisplayName] is the local part with its first
    character in upper case and the rest as it is; an empty local part gives
    the empty name. *)
Theorem getDisplayName_falls_back_on_email
  (u : User) (local domain : string)
  (Hd : Js.truthy (displayName u) = false)
  (He : email u = String.append local (String "@" domain))
  (Hl : forall c, In c (list_ascii_of_string local) -> c <> "@"%char) :
  AuthDisplay.getDisplayName (Some u) =
  String.append (Js.toUpperCase (Js.charAt0 local)) (Js.slice1 local) /\
  (local = "" -> AuthDisplay.getDisplayName (Some u) = "").
Proof.
  assert (E : AuthDisplay.getDisplayName (Some u) =
              String.append (Js.toUpperCase (Js.charAt0 local)) (Js.slice1 local)).
  { unfold AuthDisplay.getDisplayName. rewrite Hd, He.
    destruct local as [|a l]; simpl String.append at 1; simpl String.eqb; simpl negb;
      cbv iota.
    - reflexivity.
    - change (String a (String.append l (String "@" domain)))
        with (String.append (String a l) (String "@" domain)).
      now rewrite split_hd_before_separator. }
  split; [exact E|]. intro H; rewrite E, H; reflexivity.
Qed.

Lemma getDisplayName_falls_back_on_email_witness :
  Js.truthy (displayName adaNoName) = false /\
  email adaNoName = String.append "ada" (String "@" "x.com") /\
  AuthDisplay.getDisplayName (Some adaNoName) = "Ada".
Proof.
  split; [reflexivity|]. split; [reflexivity|].
  refine (proj1 (getDisplayName_falls_back_on_email adaNoName "ada" "x.com"
                   eq_refl eq_refl _)).
  intros c [H|[H|[H|[]]]]; subst c; discriminate.
Defined.

(** ** Users restored from a session *)

(** X21. The display name of a restored user is the session's [full_name]
    when that is a non-empty string and its [name] otherwise; the photo is
    its [avatar_url] when non-empty and its [picture] otherwise.  Without
    metadata both are absent, not the empty string. *)
Theorem restored_user_prefers_full_name_and_avatar
  (w : World) (s : AuthState) (u : SupabaseUser)
  (H : getSession w = Fulfilled (Some (Some u))) :
  exists restored,
    user (applyEvents s (events (Auth.checkExistingSession w))) = Some restored /\
    match user_metadata u with
    | None => displayName restored = None /\ photoURL restored = None
    | Some md =>
        (Js.truthy (full_name md) = true -> displayName restored = full_name md) /\
        (Js.truthy (full_name md) = false -> displayName restored = name md) /\
        (Js.truthy (avatar_url md) = true -> photoURL restored = avatar_url md) /\
        (Js.truthy (avatar_url md) = false -> photoURL restored = picture md)
    end.
Proof.
  exists (Auth.sessionUser u).
  unfold Auth.checkExistingSession, tryCatch, bind, await, emit, ret, events.
  rewrite H; simpl. split; [reflexivity|].
  unfold Auth.sessionUser, Js.or; simpl.
  destruct (user_metadata u) as [md|]; [|split; reflexivity].
  repeat split; intro T; now rewrite T.
Qed.

Lemma restored_user_prefers_full_name_and_avatar_witness :
  getSession restoringWorld = Fulfilled (Some (Some bareSessionUser)) /\
  exists restored,
    user (applyEvents Auth.initialAuthState
            (events (Auth.checkExistingSession restoringWorld))) = Some restored /\
    match user_metadata bareSessionUser with
    | None => displayName restored = None /\ photoURL restored = None
    | Some md =>
        (Js.truthy (full_name md) = true -> displayName restored = full_name md) /\
        (Js.truthy (full_name md) = false -> displayName restored = name md) /\
        (Js.truthy (avatar_url md) = true -> photoURL restored = avatar_url md) /\
        (Js.truthy (avatar_url md) = false -> photoURL restored = picture md)
    end.
Proof.
  split; [reflexivity|].
  exact (restored_user_prefers_full_name_and_avatar restoringWorld
           Auth.initialAuthState bareSessionUser eq_refl).
Defined.

Lemma checkExistingSession_restores w s u :
  getSession w = Fulfilled (Some (Some u)) ->
  user (applyEvents s (events (Auth.checkExistingSession w))) =
  Some (Auth.sessionUser u).
Proof.
  intro H.
  unfold Auth.checkExistingSession, tryCatch, bind, await, emit, ret, events.
  now rewrite H.
Qed.

(** X22. For a user restored from a session without metadata whose email is
    [local@domain], the card shows the badge ["Google"], the placeholder
    ["?"] for a picture, the capitalised local part as the name, the
    session's email, and an enabled ["Sign Out"] button. *)
Theorem restored_user_card
  (w : World) (s : AuthState) (u : SupabaseUser) (local domain : string)
  (H : getSession w = Fulfilled (Some (Some u)))
  (Hm : user_metadata u = None)
  (He : sb_email u = Some (String.append local (String "@" domain)))
  (Hl : forall c, In c (list_ascii_of_string local) -> c <> "@"%char) :
  exists c,
    ProfileCard.render
      (user (applyEvents s (events (Auth.checkExistingSession w)))) false =
    ProfileCard.SignedIn c /\
    ProfileCard.badge c = Some "Google" /\
    ProfileCard.avatar c = AuthDisplay.PlaceholderText "?" /\
    ProfileCard.nameText c = ProfileCard.capitalize local /\
    ProfileCard.emailText c = String.append local (String "@" domain) /\
    ProfileCard.buttonsDisabled c = false /\
    ProfileCard.signOutLabel c = "Sign Out".
Proof.
  rewrite (checkExistingSession_restores w s u H).
  assert (Em : email (Auth.sessionUser u) = String.append local (String "@" domain)).
  { unfold Auth.sessionUser; simpl. rewrite He.
    destruct local; reflexivity. }
  assert (Ed : displayName (Auth.sessionUser u) = None).
  { unfold Auth.sessionUser; simpl. now rewrite Hm. }
  assert (Ep : photoURL (Auth.sessionUser u) = None).
  { unfold Auth.sessionUser; simpl. now rewrite Hm. }
  assert (Eg : provider (Auth.sessionUser u) = Some "google") by reflexivity.
  remember (Auth.sessionUser u) as r eqn:Er. clear Er.
  eexists; split; [reflexivity|].
  unfold ProfileCard.render.
  cbn [ProfileCard.badge ProfileCard.avatar ProfileCard.nameText
       ProfileCard.emailText ProfileCard.buttonsDisabled ProfileCard.signOutLabel].
  repeat split.
  - unfold ProfileCard.providerBadge. now rewrite Eg.
  - unfold AuthDisplay.profileAvatar. now rewrite Ep, Ed.
  - unfold AuthDisplay.getDisplayName. rewrite Ed, Em. simpl Js.truthy. cbv iota.
    destruct local as [|a l]; [reflexivity|].
    simpl String.append at 1; simpl String.eqb; simpl negb; cbv iota.
    change (String a (String.append l (String "@" domain)))
      with (String.append (String a l) (String "@" domain)).
    now rewrite split_hd_before_separator.
  - exact Em.
Qed.

Lemma restored_user_card_witness :
  getSession restoringWorld = Fulfilled (Some (Some bareSessionUser)) /\
  exists c,
    ProfileCard.render
      (user (applyEvents Auth.initialAuthState
               (events (Auth.checkExistingSession restoringWorld)))) false =
    ProfileCard.SignedIn c /\
    ProfileCard.badge c = Some "Google" /\
    ProfileCard.avatar c = AuthDisplay.PlaceholderText "?" /\
    ProfileCard.nameText c = ProfileCard.capitalize "ada" /\
    ProfileCard.emailText c = String.append "ada" (String "@" "x.com") /\
    ProfileCard.buttonsDisabled c = false /\
    ProfileCard.signOutLabel c = "Sign Out".
Proof.
  split; [reflexivity|].
  refine (restored_user_card restoringWorld Auth.initialAuthState bareSessionUser
            "ada" "x.com" eq_refl eq_refl eq_refl _).
  intros c [H|[H|[H|[]]]]; subst c; discriminate.
Defined.

(** ** What the screens show after an operation *)

(** X23. After a sign-out whose backend call answered with an error, in a
    configured state holding a user, both screens still show that user's
    profile; the message is stored in [error] but neither screen renders it
    (the error text belongs to the sign-in form). *)
Theorem failed_sign_out_keeps_profile_on_screen
  (w : World) (s : AuthState) (u : User) (err : AuthError)
  (Hb : supabaseSignOut w = Fulfilled (Some err))
  (Hc : isConfigured s = true) (Hu : user s = Some u) :
  let s' := applyEvents s (events (Auth.signOut w)) in
  error s' = Some (String.append "Sign-out failed: " (ae_message err)) /\
  AuthScreen.render s' = AuthScreen.Profile u /\
  IndexScreen.render s' = IndexScreen.Profile u.
Proof.
  intro s'; subst s'. unfold AuthScreen.render, IndexScreen.render.
  unfold_eff. rewrite Hb.
  destruct (googleSignOut w) as [[]|e]; simpl; rewrite Hc, Hu; repeat split.
Qed.

Lemma failed_sign_out_keeps_profile_on_screen_witness :
  supabaseSignOut rejectingWorld = Fulfilled (Some {| ae_message := "network down" |}) /\
  isConfigured restoredState = true /\ user restoredState = Some grace /\
  (let s' := applyEvents restoredState (events (Auth.signOut rejectingWorld)) in
   error s' = Some "Sign-out failed: network down" /\
   AuthScreen.render s' = AuthScreen.Profile grace /\
   IndexScreen.render s' = IndexScreen.Profile grace).
Proof.
  split; [reflexivity|]. split; [reflexivity|]. split; [reflexivity|].
  exact (failed_sign_out_keeps_profile_on_screen rejectingWorld restoredState grace
           {| ae_message := "network down" |} eq_refl eq_refl eq_refl).
Defined.

Lemma getInitials_orDefault n :
  AuthDisplay.getInitials (Some (Js.orDefault n "")) = AuthDisplay.getInitials n.
Proof.
  destruct n as [x|]; [|reflexivity].
  simpl. destruct (String.eqb x "") eqn:E; [reflexivity|].
  unfold AuthDisplay.getInitials. now rewrite E.
Qed.

(** X24. After a successful sign-in in a configured state both screens show
    the profile of the committed user, and its card shows the provider's
    photo when there is one and otherwise the placeholder with the initials
    of the provider's name (["?"] when the provider gave no name). *)
Theorem successful_sign_in_shows_profile
  (w : World) (captured s : AuthState)
  (H : Auth.succeeded (Auth.signInTry w captured) = true)
  (Hc : isConfigured s = true) :
  let s' := applyEvents s (events (Auth.signInWithGoogle w captured)) in
  exists data u,
    googleSignIn w = Fulfilled (Some data) /\
    AuthScreen.render s' = AuthScreen.Profile u /\
    IndexScreen.render s' = IndexScreen.Profile u /\
    (Js.truthy (g_photo (g_user data)) = true ->
     Some (AuthDisplay.profileAvatar u) =
     option_map AuthDisplay.ProfileImage (g_photo (g_user data))) /\
    (Js.truthy (g_photo (g_user data)) = false ->
     AuthDisplay.profileAvatar u =
     AuthDisplay.PlaceholderText (AuthDisplay.getInitials (g_name (g_user data)))).
Proof.
  intro s'; subst s'.
  destruct (signIn_success_path w captured H) as (data & resp & backend & Hb & _ & _ & E).
  exists data, (Auth.userData backend (g_user data)).
  destruct Hb as ((_ & _ & Hsi) & _). split; [exact Hsi|].
  unfold AuthScreen.render, IndexScreen.render.
  rewrite applyEvents_updatesOf, E. simpl fold_left.
  cbn [isConfigured user spread p_user p_isConfigured]. rewrite Hc.
  split; [reflexivity|]. split; [reflexivity|].
  unfold AuthDisplay.profileAvatar, Auth.userData;
    cbn [photoURL displayName].
  split; intro T.
  - destruct (g_photo (g_user data)) as [p|]; [|discriminate T].
    simpl in T. simpl Js.orDefault. simpl Js.truthy.
    destruct (String.eqb p "") eqn:Ep; [discriminate T|].
    simpl. now rewrite Ep.
  - rewrite (orDefault_falsy _ "" T). simpl Js.truthy. cbv iota.
    now rewrite getInitials_orDefault.
Qed.

Lemma successful_sign_in_shows_profile_witness :
  Auth.succeeded (Auth.signInTry happyWorld configuredState) = true /\
  isConfigured configuredState = true /\
  (let s' := applyEvents configuredState
               (events (Auth.signInWithGoogle happyWorld configuredState)) in
   exists data u,
     googleSignIn happyWorld = Fulfilled (Some data) /\
     AuthScreen.render s' = AuthScreen.Profile u /\
     IndexScreen.render s' = IndexScreen.Profile u /\
     (Js.truthy (g_photo (g_user data)) = true ->
      Some (AuthDisplay.profileAvatar u) =
      option_map AuthDisplay.ProfileImage (g_photo (g_user data))) /\
     (Js.truthy (g_photo (g_user data)) = false ->
      AuthDisplay.profileAvatar u =
      AuthDisplay.PlaceholderText (AuthDisplay.getInitials (g_name (g_user data))))).
Proof.
  split; [reflexivity|]. split; [reflexivity|].
  exact (successful_sign_in_shows_profile happyWorld configuredState configuredState
           eq_refl eq_refl).
Defined.
